(** * SmartFurnace: the schedule editor's validation and persistence core

    A shallow embedding of [schedule_window.py]: the time validator
    [ScheduleWindow.validate_time_format] with the module's [TIME_PATTERN],
    the row collector [ScheduleWindow.validate_and_collect_entries] and the
    store function [save_schedule].  The module refers to [sqlite3] without
    importing it, so [save_schedule] is followed as far as a call gets: to
    the [NameError] of its first statement.

    Beside these, the methods that hand the collected entries on,
    [update_schedule] and [save_as_schedule], and
    [auto_populate_first_row], with the further properties at the end.

    Conventions of the embedding.
    - A Python [str] is a [string]; its characters are the code points below
      256.  On these, the only decimal digits ([\d], [int]) are ["0"].. ["9"].
    - [int] runs under the interpreter's limit on the digits of a decimal
      literal, which is a parameter of the collector.
    - A Python exception is a value of [exn]; a call that may raise returns
      a [result].
    - Message boxes, log records and printed lines are returned as lists. *)

From Stdlib Require Import ZArith Ascii String List Lia Bool.
From stdpp Require Import base option list gmap strings pretty.

Local Open Scope string_scope.
Local Open Scope Z_scope.

(** ** Python primitives used by the module *)

Module Py.

(** [ord(c)] *)
Definition ord (c : ascii) : N := N_of_ascii c.

(** [c.isdecimal()]: the decimal digits, which are what [\d] matches and
    what [int] reads.  Below code point 256 they are ["0"] to ["9"]. *)
Definition isdecimal (c : ascii) : bool :=
  ((48 <=? ord c) && (ord c <=? 57))%N.

Definition digit_value (c : ascii) : Z := Z.of_N (ord c) - 48.

(** [c.isspace()] on code points below 256: tab, LF, VT, FF, CR, the four
    separators FS GS RS US, space, NEL and the no-break space. *)
Definition isspace (c : ascii) : bool :=
  let n := ord c in
  (((9 <=? n) && (n <=? 13)) || ((28 <=? n) && (n <=? 32))
   || (n =? 133) || (n =? 160))%N.

Fixpoint lstrip (s : string) : string :=
  match s with
  | String c r => if isspace c then lstrip r else s
  | EmptyString => EmptyString
  end.

Fixpoint rstrip (s : string) : string :=
  match s with
  | String c r =>
      let r' := rstrip r in
      if isspace c && String.eqb r' "" then "" else String c r'
  | EmptyString => EmptyString
  end.

(** [s.strip()] *)
Definition strip (s : string) : string := rstrip (lstrip s).

(** The digits of an integer literal after its first digit: digits, each
    optionally preceded by one underscore. *)
Fixpoint int_digits (acc : Z) (s : string) : option Z :=
  match s with
  | EmptyString => Some acc
  | String c r =>
      if isdecimal c then int_digits (acc * 10 + digit_value c) r
      else if Ascii.eqb c "_" then
        match r with
        | String d r' =>
            if isdecimal d then int_digits (acc * 10 + digit_value d) r'
            else None
        | EmptyString => None
        end
      else None
  end.

Definition int_unsigned (s : string) : option Z :=
  match s with
  | String c r => if isdecimal c then int_digits (digit_value c) r else None
  | EmptyString => None
  end.

(** The reading of a decimal literal: surrounding whitespace is dropped,
    one sign is allowed, then digits with single underscores between them.
    [None] when the text is no such literal. *)
Definition int_literal (s : string) : option Z :=
  match strip s with
  | String c r =>
      if Ascii.eqb c "-" then Z.opp <$> int_unsigned r
      else if Ascii.eqb c "+" then int_unsigned r
      else int_unsigned (String c r)
  | EmptyString => None
  end.

(** The number of decimal digits in a text. *)
Fixpoint digit_count (s : string) : N :=
  match s with
  | EmptyString => 0
  | String c r => ((if isdecimal c then 1 else 0) + digit_count r)%N
  end.

(** The interpreter's guard on the length of decimal literals: a literal
    of more than 640 digits is refused when a limit is set
    ([max_str_digits], the value of [sys.get_int_max_str_digits()]: 4300
    unless configured otherwise, 0 for no limit, and never set below 640)
    and the literal has more digits than the limit.  An interpreter
    without the guard behaves as one with the limit 0. *)
Definition too_many_digits (max_str_digits digits : N) : bool :=
  ((640 <? digits) && (0 <? max_str_digits) && (max_str_digits <? digits))%N.

(** [int(s)] for a [str] argument, base 10, under the limit
    [max_str_digits].  [None] stands for [ValueError], which is raised for
    a text that is no literal and for a literal with too many digits
    alike.  (The digits of a literal are the digits of its text; a text
    that is no literal is refused whatever the count.) *)
Definition int (max_str_digits : N) (s : string) : option Z :=
  if too_many_digits max_str_digits (digit_count s) then None
  else int_literal s.

End Py.

(** ** The time pattern

    [TIME_PATTERN = re.compile(r'^(\d{1,2}):([0-5]?\d):([0-5]?\d)$')],
    applied with [TIME_PATTERN.match]. *)

Module Re.

(** [[0-5]] *)
Definition in_0_5 (c : ascii) : bool :=
  ((48 <=? Py.ord c) && (Py.ord c <=? 53))%N.

(** A literal [:] *)
Definition colon (s : string) : option string :=
  match s with
  | String c r => if Ascii.eqb c ":" then Some r else None
  | EmptyString => None
  end.

(** [$] without MULTILINE: the end of the string, or the position just
    before a newline that ends the string. *)
Definition dollar (s : string) : option string :=
  if String.eqb s "" || String.eqb s (String "010" "") then Some "" else None.

(** One group [(L?\d)] followed by the continuation [k], where [L] is
    [lead]: the optional leading character is tried first (the quantifier
    is greedy) and given up when the rest does not match.  With
    [lead := isdecimal] this is [(\d{1,2})]. *)
Definition group (lead : ascii → bool) (k : string → option string)
    (s : string) : option (string * string) :=
  match s with
  | String a r =>
      let short :=
        if Py.isdecimal a then (λ r', (String a "", r')) <$> k r else None in
      match r with
      | String b r' =>
          if lead a && Py.isdecimal b then
            match k r' with
            | Some r'' => Some (String a (String b ""), r'')
            | None => short
            end
          else short
      | EmptyString => short
      end
  | EmptyString => None
  end.

(** [TIME_PATTERN.match(s)]: [None], or the three groups. *)
Definition TIME_PATTERN_match (s : string) : option (string * string * string) :=
  match group Py.isdecimal colon s with
  | Some (hours, s1) =>
      match group in_0_5 colon s1 with
      | Some (minutes, s2) =>
          match group in_0_5 dollar s2 with
          | Some (seconds, _) => Some (hours, minutes, seconds)
          | None => None
          end
      | None => None
      end
  | None => None
  end.

End Re.

(** ** Exceptions and results *)

Inductive exn : Type :=
  | NameError
  | AttributeError
  | ValueError
  | TypeError
  | OverflowError
  | OperationalError   (* sqlite3.OperationalError *)
  | ProgrammingError   (* sqlite3.ProgrammingError *)
  | IntegrityError.    (* sqlite3.IntegrityError *)

(** [isinstance(e, sqlite3.Error)] *)
Definition is_sqlite3_Error (e : exn) : bool :=
  match e with
  | OperationalError | ProgrammingError | IntegrityError => true
  | _ => false
  end.

Inductive result (A : Type) : Type :=
  | Return (a : A)
  | Raise (e : exn).
Arguments Return {A} a.
Arguments Raise {A} e.

#[global] Instance result_ret : MRet result := λ A a, Return a.
#[global] Instance result_bind : MBind result := λ A B f m,
  match m with
  | Return a => f a
  | Raise e => Raise e
  end.
#[global] Instance result_fmap : FMap result := λ A B f m,
  match m with
  | Return a => Return (f a)
  | Raise e => Raise e
  end.

(** ** The editor's table *)

(** The cell widgets the editor places in its table, with the one piece of
    state the collector reads from each.  Every combo box the editor
    creates has items, so each of these widgets counts as true in
    [all([...])]. *)
Inductive widget : Type :=
  | QComboBox (current : string)
  | QLineEdit (contents : string).

(** [w.currentText()]: only a combo box has the method. *)
Definition currentText (w : widget) : result string :=
  match w with
  | QComboBox s => Return s
  | QLineEdit _ => Raise AttributeError
  end.

(** [w.text()]: only a line edit has the method. *)
Definition text (w : widget) : result string :=
  match w with
  | QLineEdit s => Return s
  | QComboBox _ => Raise AttributeError
  end.

(** One table row: [self.table.cellWidget(row, c)] for [c] in 0..4, [None]
    where no widget is set. *)
Record table_row : Type := TableRow {
  cell0 : option widget;
  cell1 : option widget;
  cell2 : option widget;
  cell3 : option widget;
  cell4 : option widget
}.

(** The dictionary appended to [valid_entries]. *)
Record entry : Type := Entry {
  CycleType : string;
  StartTemp : Z;
  EndTemp : Z;
  Duration : string;
  Notes : string
}.

(** Why a collection is abandoned; [row] is the loop variable, counted
    from 0. *)
Inductive rejection : Type :=
  | InvalidTime (row : nat)
  | InvalidTemperature (row : nat)
  | InvalidTemperatureFormat (row : nat)
  | NoValidEntries.

(** The text handed to [QMessageBox.warning]; rows are shown counted
    from 1 ([row + 1]). *)
Definition warning_text (r : rejection) : string :=
  match r with
  | InvalidTime row =>
      "Invalid time format in row " +:+ pretty (row + 1)%nat +:+ ". Use HH:MM:SS"
  | InvalidTemperature row =>
      "Invalid temperature in row " +:+ pretty (row + 1)%nat
  | InvalidTemperatureFormat row =>
      "Invalid temperature format in row " +:+ pretty (row + 1)%nat
  | NoValidEntries =>
      "No valid entries to save. Please check all required fields."
  end.

(** What one pass through the loop body decides. *)
Inductive verdict : Type :=
  | Skip                      (* [continue] *)
  | Append (e : entry)        (* [valid_entries.append(...)] *)
  | Abort (why : rejection).  (* warning, then [return None] *)

(** What a call of the collector leaves behind. *)
Record collected : Type := Collected {
  shown : list string;            (* message boxes, oldest first *)
  logged : list (nat * exn);      (* [logger.error] records: row, exception *)
  returned : option (list entry)  (* [None], or the list of entries *)
}.

Definition log_error (row : nat) (e : exn) (c : collected) : collected :=
  {| shown := shown c; logged := (row, e) :: logged c; returned := returned c |}.

Definition reject_with (show_warnings : bool) (why : rejection) : collected :=
  {| shown := if show_warnings then [warning_text why] else [];
     logged := [];
     returned := None |}.

Module ScheduleWindow.

(** [ScheduleWindow.validate_time_format(self, time_str)].  Every
    exception inside is caught and turned into [False]. *)
Definition validate_time_format (max_str_digits : N) (time_str : string) : bool :=
  if String.eqb time_str "" then false
  else
    match Re.TIME_PATTERN_match time_str with
    | None => false
    | Some (hours, minutes, seconds) =>
        match Py.int max_str_digits hours, Py.int max_str_digits minutes,
              Py.int max_str_digits seconds with
        | Some hours, Some minutes, Some seconds =>
            negb (negb ((0 <=? hours) && (hours <=? 99)
                        && (0 <=? minutes) && (minutes <=? 59)
                        && (0 <=? seconds) && (seconds <=? 59)))
        | _, _, _ => false
        end
    end.

Section Collector.

(** The names imported from [constants], which is not part of this
    module: the two temperature bounds and the time validator the
    collector calls (the global [validate_time_format], not the method
    above). *)
Variables MIN_TEMP MAX_TEMP : Z.
Variable imported_validate_time_format : string → result bool.

(** The interpreter's limit on the digits of a decimal literal, under
    which the calls of [int] run (see [Py.too_many_digits]). *)
Variable int_max_str_digits : N.

(** Modelled from the spec: [validate_temperature] of [constants], said
    to fail exactly when the value is outside [[MIN_TEMP, MAX_TEMP]]. *)
Definition validate_temperature (value : Z) : bool :=
  (MIN_TEMP <=? value) && (value <=? MAX_TEMP).

(** [all([a, b, c, d])] on strings: each is non-empty. *)
Definition all_nonempty (l : list string) : bool :=
  forallb (λ s, negb (String.eqb s "")) l.

(** The first half of the loop body: the widgets of the row and the
    values read from them.  [None] is the [continue] taken when one of
    the four required widgets is missing. *)
Definition row_fields (r : table_row)
    : result (option (string * string * string * string * string)) :=
  match cell0 r, cell1 r, cell2 r, cell3 r with
  | Some cycle_type_widget, Some start_temp_widget,
    Some end_temp_widget, Some cycle_time_widget =>
      cycle_type ← currentText cycle_type_widget;
      start_temp_text ← Py.strip <$> text start_temp_widget;
      end_temp_text ← Py.strip <$> text end_temp_widget;
      cycle_time_text ← Py.strip <$> text cycle_time_widget;
      notes_text ← match cell4 r with
                   | Some notes_widget => Py.strip <$> text notes_widget
                   | None => Return ""
                   end;
      Return (Some (cycle_type, start_temp_text, end_temp_text,
                    cycle_time_text, notes_text))
  | _, _, _, _ => Return None
  end.

(** The second half: the checks on the values read. *)
Definition judge (row : nat)
    (cycle_type start_temp_text end_temp_text cycle_time_text notes_text : string)
    : result verdict :=
  if negb (all_nonempty
             [cycle_type; start_temp_text; end_temp_text; cycle_time_text])
  then Return Skip
  else
    time_ok ← imported_validate_time_format cycle_time_text;
    if negb time_ok then Return (Abort (InvalidTime row))
    else
      match Py.int int_max_str_digits start_temp_text,
            Py.int int_max_str_digits end_temp_text with
      | Some start_temp, Some end_temp =>
          if negb (validate_temperature start_temp
                   && validate_temperature end_temp)
          then Return (Abort (InvalidTemperature row))
          else Return (Append {| CycleType := cycle_type;
                                 StartTemp := start_temp;
                                 EndTemp := end_temp;
                                 Duration := cycle_time_text;
                                 Notes := notes_text |})
      | _, _ => Return (Abort (InvalidTemperatureFormat row))
      end.

(** The body of the [for row in range(row_count)] loop, inside its
    outer [try]: an exception it raises is the [Raise] result. *)
Definition row_body (row : nat) (r : table_row) : result verdict :=
  fields ← row_fields r;
  match fields with
  | Some (cycle_type, start_temp_text, end_temp_text,
          cycle_time_text, notes_text) =>
      judge row cycle_type start_temp_text end_temp_text
            cycle_time_text notes_text
  | None => Return Skip
  end.

(** The loop from row [row] on, with [valid_entries] as built so far,
    and the check that follows the loop. *)
Fixpoint collect_from (show_warnings : bool) (row : nat)
    (rows : list table_row) (valid_entries : list entry) : collected :=
  match rows with
  | r :: rest =>
      match row_body row r with
      | Raise e =>
          log_error row e (collect_from show_warnings (S row) rest valid_entries)
      | Return Skip => collect_from show_warnings (S row) rest valid_entries
      | Return (Append e) =>
          collect_from show_warnings (S row) rest (valid_entries ++ [e])
      | Return (Abort why) => reject_with show_warnings why
      end
  | [] =>
      match valid_entries with
      | [] => reject_with show_warnings NoValidEntries
      | _ :: _ => {| shown := []; logged := []; returned := Some valid_entries |}
      end
  end.

(** [validate_and_collect_entries(self, show_warnings)] on a table with
    the given rows. *)
Definition validate_and_collect_entries (show_warnings : bool)
    (table : list table_row) : collected :=
  collect_from show_warnings 0 table [].

End Collector.

End ScheduleWindow.

(** ** The module's names and the store function

    [save_schedule] reads the global name [sqlite3] in the first statement
    of its [try] block (line 378) and again in its [except] clause (line
    405).  [schedule_window.py] has no [import sqlite3], and no other
    statement of the module binds the name. *)

(** A Python value of the kinds that are passed between the functions. *)
Inductive pyval : Type :=
  | PyNone
  | PyBool (b : bool)
  | PyInt (n : Z)
  | PyStr (s : string).

(** The names the module binds at its top level: by the import statements
    (lines 1-22), by the assignments of lines 24 and 27, by the class
    statement (line 29) and by the function definition (line 376). *)
Definition module_names : list string :=
  ["QDialog"; "QTableWidget"; "QTableWidgetItem"; "QVBoxLayout";
   "QHBoxLayout"; "QPushButton"; "QInputDialog"; "QMessageBox";
   "QComboBox"; "QLineEdit"; "QHeaderView"; "QWidget";
   "QPalette"; "QIntValidator"; "QObject";
   "List"; "Dict"; "Optional"; "Tuple";
   "ThemeManager"; "get_dialog_style"; "get_button_style";
   "get_table_style"; "get_combo_style";
   "DatabaseManager";
   "TIME_PATTERN"; "TEMP_PATTERN"; "DEFAULT_TIME"; "MIN_TEMP"; "MAX_TEMP";
   "ERROR_MESSAGES"; "SUCCESS_MESSAGES"; "validate_time_format";
   "validate_temperature"; "DEFAULT_TEMP";
   "re"; "logging"; "logger"; "ScheduleWindow"; "save_schedule"].

(** Reading the global name [name] inside a function of the module, for
    a name that is no builtin, as [sqlite3] is none: the name is found
    when the module binds it, and raises [NameError] otherwise. *)
Definition LOAD_GLOBAL (name : string) : result unit :=
  if existsb (String.eqb name) module_names
  then Return tt else Raise NameError.

(** The two lines [save_schedule] would print. *)
Inductive line : Type :=
  | SavedSuccessfully (schedule_name : string)
  | ErrorWhileSaving (e : exn).

(** What a call of [save_schedule] leaves behind: the value it returned or
    the exception it raised, what it printed, and what the database file
    holds. *)
Record saved (D : Type) : Type := Saved {
  outcome : result pyval;
  printed : list line;
  database : D
}.
Arguments Saved {D} outcome printed database.
Arguments outcome {D} s.
Arguments printed {D} s.
Arguments database {D} s.

Section Store.

(** [E] is the type of what is passed as [entries], [D] the type of what
    the database file holds. *)
Context {E D : Type}.

(** How a call would go on from line 378 with the name [sqlite3] found:
    what Python's [sqlite3] module and the statements of lines 378-407
    would then do. *)
Variable with_sqlite3 : string → E → D → saved D.

(** [save_schedule(schedule_name, entries)] run with the database file
    holding [db].  The first statement of the [try] block,
    [conn = sqlite3.connect('SmartFurnace.db')], starts by reading the
    name [sqlite3].  When that raises, the exception is matched against
    [except sqlite3.Error as e], for which the same name is read and raises
    in the same way; this exception leaves the function.  No connection
    has been opened and neither [print] is reached. *)
Definition save_schedule (schedule_name : string) (entries : E) (db : D)
    : saved D :=
  match LOAD_GLOBAL "sqlite3" with
  | Return _ => with_sqlite3 schedule_name entries db
  | Raise e => {| outcome := Raise e; printed := []; database := db |}
  end.

End Store.

(** ** The wording of the specification, for comparison *)

(** The spec's time format [H(H):M(M):S(S)]: three fields of one or two
    decimal digits, the number a field spells at most 99 for the hours and
    at most 59 for the minutes and the seconds.  A decimal digit is one in
    Python's sense, and its value the one Python gives it. *)
Definition decimal_digit (c : ascii) : Prop :=
  Py.isdecimal c = true.

Fixpoint decimal_value (acc : Z) (f : string) : Z :=
  match f with
  | EmptyString => acc
  | String c r => decimal_value (acc * 10 + Py.digit_value c) r
  end.

Definition time_field (bound : Z) (f : string) : Prop :=
  ((∃ a, f = String a "" ∧ decimal_digit a)
   ∨ (∃ a b, f = String a (String b "") ∧ decimal_digit a ∧ decimal_digit b))
  ∧ decimal_value 0 f ≤ bound.

Definition time_text (s : string) : Prop :=
  ∃ h m sec, time_field 99 h ∧ time_field 59 m ∧ time_field 59 sec
             ∧ s = h +:+ ":" +:+ m +:+ ":" +:+ sec.

(** ** Instances used in the examples *)

Module Example.

(** The interpreter's default limit on the digits of a decimal literal. *)
Definition int_max_str_digits : N := 4300.

(** The method above, as the validator the collector imports. *)
Definition time_validator (s : string) : result bool :=
  Return (ScheduleWindow.validate_time_format int_max_str_digits s).

Definition MIN_TEMP : Z := 0.
Definition MAX_TEMP : Z := 1500.

Definition line_edits (cycle_type start_temp end_temp cycle_time notes : string)
    : table_row :=
  {| cell0 := Some (QComboBox cycle_type);
     cell1 := Some (QLineEdit start_temp);
     cell2 := Some (QLineEdit end_temp);
     cell3 := Some (QLineEdit cycle_time);
     cell4 := Some (QLineEdit notes) |}.

(** What the database file holds in the scenarios: tables by name, each
    the list of its rows. *)
Definition database_file : Type := gmap string (list (list pyval)).

(** The scenarios need a value for what lies behind the lookup of
    [sqlite3]; no call gets there, so it shows in no result. *)
Definition with_sqlite3 {E : Type} (schedule_name : string) (entries : E)
    (db : database_file) : saved database_file :=
  {| outcome := Return PyNone; printed := []; database := db |}.

(** The collector and the store with these instances, and the rows and
    entries of the scenarios. *)
Definition collect :=
  ScheduleWindow.validate_and_collect_entries MIN_TEMP MAX_TEMP
      time_validator int_max_str_digits.
Definition save {E : Type} : string → E → database_file → saved database_file :=
  save_schedule with_sqlite3.

(** A Ramp cycle and a Soak cycle as tuples, the form [(i,) + entry] of
    line 400 expects. *)
Definition ramp_tuple : list pyval :=
  [PyStr "Ramp"; PyInt 20; PyInt 200; PyStr "01:30:00"; PyStr ""].
Definition soak_tuple : list pyval :=
  [PyStr "Soak"; PyInt 200; PyInt 200; PyStr "00:45:00"; PyStr "hold"].

Definition ramp_row := line_edits "Ramp" "20" "200" "01:30:00" "".
Definition soak_row := line_edits "Soak" "200" "200" "00:45:00" "hold".
Definition blank_row := line_edits "" "" "" "" "".
Definition bad_time_row := line_edits "Soak" "20" "200" "bad-time" "".
Definition bad_format_row := line_edits "Ramp" "abc" "200" "01:00:00" "".
Definition too_hot_row := line_edits "Ramp" "20" "1501" "01:00:00" "".

(** A literal of 4301 digits and a row with it as start temperature. *)
Definition long_literal : string := Nat.iter 4301 (String "1") "".
Definition too_long_row := line_edits "Ramp" long_literal "200" "01:00:00" "".
Definition wrong_widget_row :=
  {| cell0 := Some (QLineEdit "Ramp"); cell1 := Some (QLineEdit "20");
     cell2 := Some (QLineEdit "200"); cell3 := Some (QLineEdit "01:30:00");
     cell4 := None |}.

Definition ramp := {| CycleType := "Ramp"; StartTemp := 20; EndTemp := 200;
                      Duration := "01:30:00"; Notes := "" |}.
Definition soak := {| CycleType := "Soak"; StartTemp := 200; EndTemp := 200;
                      Duration := "00:45:00"; Notes := "hold" |}.

End Example.

(** ** Vocabulary of the statements *)

Definition newline : string := String "010" "".

(** Whether a text ends in a line feed. *)
Fixpoint ends_in_newline (s : string) : bool :=
  match s with
  | EmptyString => false
  | String c EmptyString => Ascii.eqb c "010"
  | String _ r => ends_in_newline r
  end.

(** What one group of [TIME_PATTERN] can capture: one digit, or a leading
    character of the group's class and a digit. *)
Definition captured (lead : ascii → bool) (f : string) : Prop :=
  (∃ a, f = String a "" ∧ Py.isdecimal a = true)
  ∨ (∃ a b, f = String a (String b "") ∧ lead a = true ∧ Py.isdecimal b = true).

(** The entries of the rows that pass every check, in table order. *)
Definition survivors (MIN_TEMP MAX_TEMP : Z)
    (validate_time_format : string → result bool) (int_max_str_digits : N)
    (table : list table_row)
    : list entry :=
  omap (λ r, match ScheduleWindow.row_body MIN_TEMP MAX_TEMP
                     validate_time_format int_max_str_digits 0 r with
             | Return (Append e) => Some e
             | _ => None
             end) table.

(** None of [rows], numbered from [i], is rejected. *)
Definition no_abort_from (MIN_TEMP MAX_TEMP : Z)
    (validate_time_format : string → result bool) (int_max_str_digits : N)
    (i : nat) (rows : list table_row) : Prop :=
  ∀ (j : nat) r why, rows !! j = Some r →
    ScheduleWindow.row_body MIN_TEMP MAX_TEMP
        validate_time_format int_max_str_digits (i + j) r
    ≠ Return (Abort why).

(** Two runs of the loop body on one row differ at most in the row number
    a rejection carries. *)
Inductive same_verdict : result verdict → result verdict → Prop :=
  | same_raise e : same_verdict (Raise e) (Raise e)
  | same_skip : same_verdict (Return Skip) (Return Skip)
  | same_append e : same_verdict (Return (Append e)) (Return (Append e))
  | same_abort w w' : same_verdict (Return (Abort w)) (Return (Abort w')).

(** ** The other methods of the dialog

    [update_schedule], [save_as_schedule] and [auto_populate_first_row].
    They call [DatabaseManager.save_schedule] of the module [database],
    which is not part of this file: it is a parameter, a function on a
    state of the store that returns a value tested for truth or raises.
    The messages looked up in [ERROR_MESSAGES] and [SUCCESS_MESSAGES] are
    named, not spelled out. *)

(** The key of a subscript: [entry['Notes']], [entry[0]]. *)
Inductive pykey : Type :=
  | KeyStr (s : string)
  | KeyInt (n : Z).

(** What these methods catch: the exceptions above, and the [KeyError] of
    a subscript with a key the dictionary does not hold. *)
Inductive caught : Type :=
  | Exception (e : exn)
  | KeyError (key : pykey).

(** The items of a collected dictionary, in the order they were written. *)
Definition entry_items (e : entry) : list (string * pyval) :=
  [("CycleType", PyStr (CycleType e)); ("StartTemp", PyInt (StartTemp e));
   ("EndTemp", PyInt (EndTemp e)); ("Duration", PyStr (Duration e));
   ("Notes", PyStr (Notes e))].

Fixpoint lookup_item (items : list (string * pyval)) (s : string) : option pyval :=
  match items with
  | [] => None
  | (k, v) :: rest => if String.eqb k s then Some v else lookup_item rest s
  end.

(** [entry[key]] on a collected dictionary: its keys are strings, so an
    integer key is never found. *)
Definition getitem (e : entry) (key : pykey) : caught + pyval :=
  match key with
  | KeyStr s =>
      match lookup_item (entry_items e) s with
      | Some v => inr v
      | None => inl (KeyError key)
      end
  | KeyInt _ => inl (KeyError key)
  end.

(** [(entry[0], entry[1], entry[2], entry[3], entry[4])] *)
Definition formatted_entry (e : entry) : caught + list pyval :=
  match getitem e (KeyInt 0) with
  | inl x => inl x
  | inr v0 =>
      match getitem e (KeyInt 1) with
      | inl x => inl x
      | inr v1 =>
          match getitem e (KeyInt 2) with
          | inl x => inl x
          | inr v2 =>
              match getitem e (KeyInt 3) with
              | inl x => inl x
              | inr v3 =>
                  match getitem e (KeyInt 4) with
                  | inl x => inl x
                  | inr v4 => inr [v0; v1; v2; v3; v4]
                  end
              end
          end
      end
  end.

(** The list comprehension [formatted_data] of [update_schedule]. *)
Fixpoint formatted_data (entries : list entry) : caught + list (list pyval) :=
  match entries with
  | [] => inr []
  | e :: rest =>
      match formatted_entry e with
      | inl x => inl x
      | inr t =>
          match formatted_data rest with
          | inl x => inl x
          | inr ts => inr (t :: ts)
          end
      end
  end.

(** What is handed to [DatabaseManager.save_schedule]: the tuples built by
    [update_schedule], or the dictionaries passed on by
    [save_as_schedule]. *)
Inductive store_data : Type :=
  | Tuples (data : list (list pyval))
  | Dicts (entries : list entry).

Inductive information : Type :=
  | UpdateSuccess   (* SUCCESS_MESSAGES['update_success'] *)
  | SaveSuccess.    (* SUCCESS_MESSAGES['save_success'] *)

Inductive critical : Type :=
  | SaveFailed                      (* ERROR_MESSAGES['save_failed'] *)
  | FailedToUpdate (e : caught)     (* "Failed to update schedule: {e}" *)
  | FailedToSave (e : caught).      (* "Failed to save schedule: {e}" *)

Inductive session_line : Type :=
  | ErrorDetails (e : caught)                 (* "Error details: {e}" *)
  | AttemptingToSave (name : string)          (* "Attempting to save schedule: {name}" *)
  | DataToSave (entries : list entry)         (* "Data to save: {entries}" *)
  | ErrorSavingSchedule (e : caught).         (* "Error saving schedule: {e}" *)

(** What the user and the log see, in order. *)
Inductive ui_event : Type :=
  | LogError (row : nat) (e : exn)
  | ShowWarning (text : string)
  | ShowInformation (m : information)
  | ShowCritical (m : critical)
  | Print (l : session_line)
  | MenuUpdated
  | Accept.

(** The events of one call of the collector: its log records, then its
    warning. *)
Definition collect_events (c : collected) : list ui_event :=
  (((λ p, LogError p.1 p.2) <$> logged c) ++ (ShowWarning <$> shown c))%list.

(** [w.setText(s)]: only a line edit has the method. *)
Definition setText (w : widget) (s : string) : result widget :=
  match w with
  | QLineEdit _ => Return (QLineEdit s)
  | QComboBox _ => Raise AttributeError
  end.

Module Dialog.

Section Methods.

Variables MIN_TEMP MAX_TEMP : Z.
Variable imported_validate_time_format : string → result bool.
Variable int_max_str_digits : N.

(** The state of the store, and [DatabaseManager.save_schedule] on it: the
    truth value of what it returns, or the exception it raises. *)
Variable store_state : Type.
Variable DatabaseManager_save_schedule :
  string → store_data → store_state → result bool * store_state.

(** [self.parent()]'s [update_schedule_menu]: [None] when the parent has no
    such attribute, else how the call ends. *)
Variable update_schedule_menu : option (result unit).

(** The defaults imported from [constants]; [DEFAULT_TEMP] is taken to be
    an integer. *)
Variable DEFAULT_TEMP : Z.
Variable DEFAULT_TIME : string.

(** What follows a true result of the store: the information box, the
    refresh of the parent's menu when it has one, [self.accept()].  An
    exception of the refresh is the [inl]. *)
Definition after_success (m : information) : caught + list ui_event :=
  match update_schedule_menu with
  | None => inr [ShowInformation m; Accept]
  | Some (Return _) => inr [ShowInformation m; MenuUpdated; Accept]
  | Some (Raise e) => inl (Exception e)
  end.

(** [update_schedule(self)] with [self.table_name] ([None] when the
    attribute is not set), on the rows of [self.table]. *)
Definition update_schedule (table_name : option string)
    (table : list table_row) (st : store_state) : list ui_event * store_state :=
  let c := ScheduleWindow.validate_and_collect_entries MIN_TEMP MAX_TEMP
             imported_validate_time_format int_max_str_digits true table in
  let handler (e : caught) :=
    [ShowCritical (FailedToUpdate e); Print (ErrorDetails e)] in
  match returned c with
  | Some ((_ :: _) as entries) =>
      match formatted_data entries with
      | inl e => ((collect_events c ++ handler e)%list, st)
      | inr data =>
          match table_name with
          | None => ((collect_events c ++ handler (Exception AttributeError))%list, st)
          | Some name =>
              match DatabaseManager_save_schedule name (Tuples data) st with
              | (Return true, st') =>
                  match after_success UpdateSuccess with
                  | inr evs => ((collect_events c ++ evs)%list, st')
                  | inl e =>
                      ((collect_events c
                          ++ ShowInformation UpdateSuccess :: handler e)%list, st')
                  end
              | (Return false, st') =>
                  ((collect_events c ++ [ShowCritical SaveFailed])%list, st')
              | (Raise e, st') =>
                  ((collect_events c ++ handler (Exception e))%list, st')
              end
          end
      end
  | _ => (collect_events c, st)
  end.

(** [save_as_schedule(self)] when [QInputDialog.getText] returns
    [(name, ok)]. *)
Definition save_as_schedule (name : string) (ok : bool)
    (table : list table_row) (st : store_state) : list ui_event * store_state :=
  if ok && negb (String.eqb name "") then
    let c := ScheduleWindow.validate_and_collect_entries MIN_TEMP MAX_TEMP
               imported_validate_time_format int_max_str_digits true table in
    let handler (e : caught) :=
      [Print (ErrorSavingSchedule e); ShowCritical (FailedToSave e)] in
    match returned c with
    | Some ((_ :: _) as entries) =>
        let prints := [Print (AttemptingToSave name); Print (DataToSave entries)] in
        match DatabaseManager_save_schedule name (Dicts entries) st with
        | (Return true, st') =>
            match after_success SaveSuccess with
            | inr evs => ((collect_events c ++ prints ++ evs)%list, st')
            | inl e =>
                ((collect_events c ++ prints
                    ++ ShowInformation SaveSuccess :: handler e)%list, st')
            end
        | (Return false, st') =>
            ((collect_events c ++ prints ++ [ShowCritical SaveFailed])%list, st')
        | (Raise e, st') =>
            ((collect_events c ++ prints ++ handler (Exception e))%list, st')
        end
    | _ => (collect_events c, st)
    end
  else ([], st).

(** [auto_populate_first_row(self, cycle_type)] on the rows of
    [self.table]: the rows afterwards, and how the call ended.
    [cellWidget(0, c)] is [None] on a table without rows. *)
Definition auto_populate_first_row (cycle_type : string)
    (table : list table_row) : result unit * list table_row :=
  if String.eqb cycle_type "Ramp" || String.eqb cycle_type "Soak" then
    match table with
    | r :: rest =>
        match cell1 r, cell3 r with
        | Some start_temp_edit, Some cycle_time_edit =>
            match setText start_temp_edit (pretty DEFAULT_TEMP) with
            | Raise e => (Raise e, table)
            | Return w1 =>
                let r1 := {| cell0 := cell0 r; cell1 := Some w1; cell2 := cell2 r;
                             cell3 := cell3 r; cell4 := cell4 r |} in
                match setText cycle_time_edit DEFAULT_TIME with
                | Raise e => (Raise e, r1 :: rest)
                | Return w3 =>
                    (Return tt,
                     {| cell0 := cell0 r; cell1 := Some w1; cell2 := cell2 r;
                        cell3 := Some w3; cell4 := cell4 r |} :: rest)
                end
            end
        | _, _ => (Return tt, table)
        end
    | [] => (Return tt, table)
    end
  else (Return tt, table).

End Methods.

End Dialog.

(** ** Vocabulary of the further statements *)

(** A text of decimal digits only. *)
Fixpoint all_decimal (s : string) : bool :=
  match s with
  | EmptyString => true
  | String c r => Py.isdecimal c && all_decimal r
  end.

(** A text made of whitespace only. *)
Fixpoint blank (s : string) : bool :=
  match s with
  | EmptyString => true
  | String c r => Py.isspace c && blank r
  end.

(** A line edit's text with whitespace put around it; other widgets as
    they are. *)
Definition padded (before after : string) (w : option widget) : option widget :=
  match w with
  | Some (QLineEdit s) => Some (QLineEdit (before +:+ s +:+ after))
  | _ => w
  end.

(** An entry as the collector lets it through: a cycle type and a duration
    that are not empty, a duration the imported validator accepts, two
    temperatures [validate_temperature] accepts, and a duration and notes
    without whitespace around them. *)
Definition passed_checks (MIN_TEMP MAX_TEMP : Z)
    (validate_time_format : string → result bool) (e : entry) : Prop :=
  CycleType e ≠ ""
  ∧ Duration e ≠ ""
  ∧ validate_time_format (Duration e) = Return true
  ∧ ScheduleWindow.validate_temperature MIN_TEMP MAX_TEMP (StartTemp e) = true
  ∧ ScheduleWindow.validate_temperature MIN_TEMP MAX_TEMP (EndTemp e) = true
  ∧ Py.strip (Duration e) = Duration e
  ∧ Py.strip (Notes e) = Notes e.

(** A row with whitespace put around the texts of its four line edits. *)
Definition pad_row (start_pad end_pad time_pad notes_pad : string * string)
    (r : table_row) : table_row :=
  {| cell0 := cell0 r;
     cell1 := padded start_pad.1 start_pad.2 (cell1 r);
     cell2 := padded end_pad.1 end_pad.2 (cell2 r);
     cell3 := padded time_pad.1 time_pad.2 (cell3 r);
     cell4 := padded notes_pad.1 notes_pad.2 (cell4 r) |}.

Module ExampleSession.

(** A store that keeps what it is given and reports success, and one that
    raises. *)
Definition keeping_store (name : string) (data : store_data)
    (st : list (string * store_data)) : result bool * list (string * store_data) :=
  (Return true, (st ++ [(name, data)])%list).

Definition failing_store (name : string) (data : store_data)
    (st : list (string * store_data)) : result bool * list (string * store_data) :=
  (Raise OperationalError, st).

Definition DEFAULT_TEMP : Z := 25.
Definition DEFAULT_TIME : string := "00:00:00".

Definition update_schedule :=
  Dialog.update_schedule Example.MIN_TEMP Example.MAX_TEMP Example.time_validator
    Example.int_max_str_digits
    (list (string * store_data)) keeping_store (Some (Return tt)).

Definition save_as_schedule :=
  Dialog.save_as_schedule Example.MIN_TEMP Example.MAX_TEMP Example.time_validator
    Example.int_max_str_digits
    (list (string * store_data)) keeping_store (Some (Return tt)).

Definition auto_populate_first_row :=
  Dialog.auto_populate_first_row DEFAULT_TEMP DEFAULT_TIME.

End ExampleSession.

(** * Properties *)

(** ** Characters and integer literals *)

#[local] Arguments Py.isdecimal : simpl never.
#[local] Arguments Py.isspace : simpl never.
#[local] Arguments Py.digit_value : simpl never.
#[local] Arguments Py.ord : simpl never.
#[local] Arguments Re.in_0_5 : simpl never.

Lemma isdecimal_spec c : Py.isdecimal c = true ↔ (48 ≤ Py.ord c ≤ 57)%N.
Proof.
  unfold Py.isdecimal.
  rewrite andb_true_iff, !N.leb_le. tauto.
Qed.

Lemma digit_not_space c : Py.isdecimal c = true → Py.isspace c = false.
Proof.
  intros H%isdecimal_spec. unfold Py.isspace. cbv zeta.
  repeat match goal with
         | |- context [(?a <=? ?b)%N] => destruct (N.leb_spec a b)
         | |- context [(?a =? ?b)%N] => destruct (N.eqb_spec a b)
         end; simpl; try reflexivity; lia.
Qed.

Lemma digit_not_char c (d : ascii) :
  Py.isdecimal c = true → Py.isdecimal d = false → Ascii.eqb c d = false.
Proof.
  intros Hc Hd. destruct (Ascii.eqb_spec c d) as [->|]; congruence.
Qed.

Lemma digit_value_range c : Py.isdecimal c = true → 0 ≤ Py.digit_value c ≤ 9.
Proof. intros H%isdecimal_spec. unfold Py.digit_value. lia. Qed.

Lemma too_many_digits_short n d : (d ≤ 640)%N → Py.too_many_digits n d = false.
Proof.
  intros H. unfold Py.too_many_digits.
  by destruct (N.ltb_spec 640 d); [lia|].
Qed.

Lemma too_many_digits_unlimited d : Py.too_many_digits 0 d = false.
Proof. unfold Py.too_many_digits. by rewrite andb_false_r. Qed.

(** Up to 640 digits the limit plays no part. *)
Lemma int_short n s : (Py.digit_count s ≤ 640)%N → Py.int n s = Py.int_literal s.
Proof. intros H. unfold Py.int. by rewrite too_many_digits_short. Qed.

(** A literal of more digits than a limit above 640 allows is refused. *)
Lemma int_too_many_digits n s :
  (640 ≤ n)%N → (n < Py.digit_count s)%N → Py.int n s = None.
Proof.
  intros Hn Hs. unfold Py.int, Py.too_many_digits.
  destruct (N.ltb_spec 640 (Py.digit_count s)); [|lia].
  destruct (N.ltb_spec 0 n); [|lia].
  by destruct (N.ltb_spec n (Py.digit_count s)); [|lia].
Qed.

Lemma int_Some n s v : Py.int n s = Some v → Py.int_literal s = Some v.
Proof. unfold Py.int. by destruct (Py.too_many_digits _ _). Qed.

Lemma int_literal_one_digit a :
  Py.isdecimal a = true → Py.int_literal (String a "") = Some (Py.digit_value a).
Proof.
  intros Ha. pose proof (digit_not_space a Ha) as Sa.
  unfold Py.int_literal, Py.strip. cbn.
  repeat (progress (rewrite ?Sa; cbn)).
  rewrite !(digit_not_char a) by (done || reflexivity).
  by rewrite Ha.
Qed.

Lemma int_literal_two_digits a b :
  Py.isdecimal a = true → Py.isdecimal b = true →
  Py.int_literal (String a (String b ""))
  = Some (Py.digit_value a * 10 + Py.digit_value b).
Proof.
  intros Ha Hb.
  pose proof (digit_not_space a Ha) as Sa. pose proof (digit_not_space b Hb) as Sb.
  unfold Py.int_literal, Py.strip. cbn.
  repeat (progress (rewrite ?Sa, ?Sb; cbn)).
  rewrite !(digit_not_char a) by (done || reflexivity).
  by rewrite Ha, Hb.
Qed.

Lemma int_one_digit n a :
  Py.isdecimal a = true → Py.int n (String a "") = Some (Py.digit_value a).
Proof.
  intros Ha. rewrite int_short; [by apply int_literal_one_digit|].
  cbn [Py.digit_count]. rewrite Ha. lia.
Qed.

Lemma int_two_digits n a b :
  Py.isdecimal a = true → Py.isdecimal b = true →
  Py.int n (String a (String b "")) = Some (Py.digit_value a * 10 + Py.digit_value b).
Proof.
  intros Ha Hb. rewrite int_short; [by apply int_literal_two_digits|].
  cbn [Py.digit_count]. rewrite Ha, Hb. lia.
Qed.

(** ** The time pattern and the validator *)

Lemma group_sound lead k s f r :
  Re.group lead k s = Some (f, r) →
  ∃ s', s = f +:+ s' ∧ k s' = Some r ∧ captured lead f.
Proof.
  unfold Re.group, captured. intros H.
  destruct s as [|a s]; [done|].
  assert (Hshort : (if Py.isdecimal a then (λ r', (String a "", r')) <$> k s else None)
                   = Some (f, r) →
                   ∃ s', String a s = f +:+ s' ∧ k s' = Some r
                         ∧ ((∃ a, f = String a "" ∧ Py.isdecimal a = true)
                            ∨ (∃ a b, f = String a (String b "") ∧ lead a = true
                                      ∧ Py.isdecimal b = true))).
  { destruct (Py.isdecimal a) eqn:Ha; [|done].
    destruct (k s) as [r'|] eqn:Hk; [|done]. cbn. intros [= <- <-].
    exists s. eauto 10. }
  destruct s as [|b s]; [by apply Hshort|].
  destruct (lead a && Py.isdecimal b) eqn:Hab; [|by apply Hshort].
  destruct (k s) as [r'|] eqn:Hk; [|by apply Hshort].
  injection H as <- <-. apply andb_true_iff in Hab as [??].
  exists s. eauto 10.
Qed.

Lemma group_complete lead k f s' r :
  captured lead f → k s' = Some r →
  (∀ b s'', s' = String b s'' → Py.isdecimal b = false) →
  Re.group lead k (f +:+ s') = Some (f, r).
Proof.
  intros [(a & -> & Ha)|(a & b & -> & Ha & Hb)] Hk Hnext.
  - change (String a "" +:+ s') with (String a s'). unfold Re.group.
    rewrite Ha, Hk. cbn. destruct s' as [|b s'']; [done|].
    rewrite (Hnext b s'') by done. by rewrite andb_false_r.
  - change (String a (String b "") +:+ s') with (String a (String b s')).
    unfold Re.group. by rewrite Ha, Hb, Hk.
Qed.

Lemma colon_spec s r : Re.colon s = Some r ↔ s = String ":" r.
Proof.
  destruct s as [|c s]; cbn; [done|].
  destruct (Ascii.eqb_spec c ":") as [->|]; naive_solver.
Qed.

Lemma dollar_spec s r :
  Re.dollar s = Some r ↔ r = "" ∧ (s = "" ∨ s = String "010" "").
Proof.
  unfold Re.dollar.
  destruct (String.eqb_spec s ""), (String.eqb_spec s (String "010" ""));
    cbn; split; try (intros [= <-]); try (intros [-> [?|?]]); auto; done.
Qed.

Lemma in_0_5_spec c : Re.in_0_5 c = true ↔ (48 ≤ Py.ord c ≤ 53)%N.
Proof. unfold Re.in_0_5. rewrite andb_true_iff, !N.leb_le. tauto. Qed.

Lemma in_0_5_digit c : Re.in_0_5 c = true → Py.isdecimal c = true.
Proof. rewrite in_0_5_spec, isdecimal_spec. lia. Qed.

Ltac digit_bounds :=
  unfold decimal_digit, Py.digit_value in *;
  repeat match goal with
         | H : Py.isdecimal _ = true |- _ => apply isdecimal_spec in H
         | H : Re.in_0_5 _ = true |- _ => apply in_0_5_spec in H
         end;
  rewrite ?isdecimal_spec, ?in_0_5_spec.

Lemma captured_int n lead f :
  (∀ c, lead c = true → Py.isdecimal c = true) → captured lead f →
  Py.int n f = Some (decimal_value 0 f) ∧ 0 ≤ decimal_value 0 f ≤ 99.
Proof.
  intros Hlead [(a & -> & Ha)|(a & b & -> & Ha%Hlead & Hb)].
  - rewrite int_one_digit by done. unfold Py.digit_value. cbn.
    digit_bounds. split; [f_equal|]; lia.
  - rewrite int_two_digits by done. unfold Py.digit_value. cbn.
    digit_bounds. split; [f_equal|]; lia.
Qed.

Lemma captured_minutes f : captured Re.in_0_5 f ↔ time_field 59 f.
Proof.
  unfold captured, time_field. split.
  - intros [(a & -> & Ha)|(a & b & -> & Ha & Hb)]; cbn; digit_bounds.
    + split; [left; exists a; split; [done|apply isdecimal_spec; lia]|lia].
    + split; [right; exists a, b; split_and!;
              [done|apply isdecimal_spec; lia..]|lia].
  - intros [[(a & -> & Ha)|(a & b & -> & Ha & Hb)] Hv]; cbn in Hv.
    + left. exists a. by digit_bounds.
    + right. exists a, b. digit_bounds. repeat split; (done || lia).
Qed.

Lemma captured_hours f : captured Py.isdecimal f ↔ time_field 99 f.
Proof.
  unfold captured, time_field. split.
  - intros [(a & -> & Ha)|(a & b & -> & Ha & Hb)]; cbn; digit_bounds.
    + split; [left; exists a; split; [done|apply isdecimal_spec; lia]|lia].
    + split; [right; exists a, b; split_and!;
              [done|apply isdecimal_spec; lia..]|lia].
  - intros [[(a & -> & Ha)|(a & b & -> & Ha & Hb)] Hv].
    + left. exists a. by digit_bounds.
    + right. exists a, b. by digit_bounds.
Qed.

Lemma TIME_PATTERN_match_spec s h m sec :
  Re.TIME_PATTERN_match s = Some (h, m, sec) ↔
  captured Py.isdecimal h ∧ captured Re.in_0_5 m ∧ captured Re.in_0_5 sec
  ∧ ∃ tail, (tail = "" ∨ tail = newline)
            ∧ s = h +:+ ":" +:+ m +:+ ":" +:+ sec +:+ tail.
Proof.
  unfold Re.TIME_PATTERN_match. split.
  - destruct (Re.group Py.isdecimal Re.colon s) as [[h' s1]|] eqn:H1; [|done].
    destruct (Re.group Re.in_0_5 Re.colon s1) as [[m' s2]|] eqn:H2; [|done].
    destruct (Re.group Re.in_0_5 Re.dollar s2) as [[sec' s3]|] eqn:H3; [|done].
    intros [= -> -> ->].
    apply group_sound in H1 as (t1 & -> & Hk1 & ?).
    apply group_sound in H2 as (t2 & E2 & Hk2 & ?).
    apply group_sound in H3 as (t3 & E3 & Hk3 & ?).
    apply colon_spec in Hk1, Hk2. apply dollar_spec in Hk3 as [_ Ht].
    subst s1 s2 t1 t2.
    repeat split; try done. by exists t3.
  - intros (Hh & Hm & Hs & tail & Htail & ->).
    rewrite (group_complete _ _ h (":" +:+ m +:+ ":" +:+ sec +:+ tail)
               (m +:+ ":" +:+ sec +:+ tail)); try done.
    + rewrite (group_complete _ _ m (":" +:+ sec +:+ tail) (sec +:+ tail)); try done.
      * rewrite (group_complete _ _ sec tail ""); try done.
        -- apply dollar_spec. by split.
        -- by destruct Htail as [-> | ->]; intros b s'' [= <- _].
      * by intros b s'' [= <- _].
    + by intros b s'' [= <- _].
Qed.

Lemma append_empty_r (s : string) : s +:+ "" = s.
Proof. induction s as [|c s IH]; [done|]. cbn. unfold String.app in *. cbn. by rewrite IH. Qed.

Lemma append_assoc (s t u : string) : (s +:+ t) +:+ u = s +:+ (t +:+ u).
Proof. induction s as [|c s IH]; [done|]. unfold String.app in *. cbn. by rewrite IH. Qed.

Lemma validate_time_format_spec n s :
  ScheduleWindow.validate_time_format n s = true ↔
  time_text s ∨ ∃ s', s = s' +:+ newline ∧ time_text s'.
Proof.
  unfold ScheduleWindow.validate_time_format. split.
  - destruct (String.eqb_spec s "") as [->|_]; [done|].
    destruct (Re.TIME_PATTERN_match s) as [[[h m] sec]|] eqn:E; [|done].
    intros _. apply TIME_PATTERN_match_spec in E as (Hh & Hm & Hs & tail & Ht & ->).
    apply captured_hours in Hh. apply captured_minutes in Hm, Hs.
    destruct Ht as [-> | ->].
    + left. exists h, m, sec. by rewrite append_empty_r.
    + right. exists (h +:+ ":" +:+ m +:+ ":" +:+ sec).
      split; [by rewrite !append_assoc|]. by exists h, m, sec.
  - intros H.
    assert (∃ h m sec tail, captured Py.isdecimal h ∧ captured Re.in_0_5 m
              ∧ captured Re.in_0_5 sec ∧ (tail = "" ∨ tail = newline)
              ∧ s = h +:+ ":" +:+ m +:+ ":" +:+ sec +:+ tail)
      as (h & m & sec & tail & Hh & Hm & Hs & Ht & ->).
    { destruct H as [(h & m & sec & Hh & Hm & Hs & ->)
                    |(s' & -> & h & m & sec & Hh & Hm & Hs & ->)];
        exists h, m, sec; [exists ""|exists newline];
        rewrite captured_hours, !captured_minutes;
        (split_and!; auto); by rewrite ?append_empty_r, ?append_assoc. }
    destruct (String.eqb_spec (h +:+ ":" +:+ m +:+ ":" +:+ sec +:+ tail) "") as [E|_].
    { destruct Hh as [(a & -> & _)|(a & b & -> & _)]; discriminate E. }
    rewrite (proj2 (TIME_PATTERN_match_spec _ h m sec)) by eauto 10.
    destruct (captured_int n _ h (λ c Hc, Hc) Hh) as [-> ?].
    destruct (captured_int n _ m in_0_5_digit Hm) as [-> ?].
    destruct (captured_int n _ sec in_0_5_digit Hs) as [-> ?].
    apply captured_minutes in Hm as [_ ?], Hs as [_ ?].
    rewrite negb_involutive, !andb_true_iff, !Z.leb_le. lia.
Qed.

Lemma ends_in_newline_append s : ends_in_newline (s +:+ newline) = true.
Proof.
  induction s as [|c s IH]; [done|].
  change (String c s +:+ newline) with (String c (s +:+ newline)).
  cbn [ends_in_newline]. destruct (s +:+ newline) eqn:E; [|done].
  by destruct s.
Qed.

(** C2, as the code behaves.  Whatever the interpreter's digit limit, the
    time validator accepts "24:00:00" (hours run up to 99), rejects
    "00:60:00", and accepts "00:59:59", "99:59:59" and "5:5:5".  In
    general it returns false on the empty string and on every text that is
    not of the form H(H):M(M):S(S) with hours 0-99 and minutes and seconds
    0-59, be it that the text does not match the pattern or that a field
    is out of its range.  Texts that end in a line feed are left out of
    the statement. *)
Theorem validate_time_format_refuses_other_texts n :
  ScheduleWindow.validate_time_format n "24:00:00" = true
  ∧ ScheduleWindow.validate_time_format n "00:60:00" = false
  ∧ ScheduleWindow.validate_time_format n "00:59:59" = true
  ∧ ScheduleWindow.validate_time_format n "99:59:59" = true
  ∧ ScheduleWindow.validate_time_format n "5:5:5" = true
  ∧ ScheduleWindow.validate_time_format n "" = false
  ∧ ∀ s, ends_in_newline s = false → ¬ time_text s →
         ScheduleWindow.validate_time_format n s = false.
Proof.
  split_and!; try reflexivity.
  intros s Hend Hno.
  destruct (ScheduleWindow.validate_time_format n s) eqn:E; [|done].
  apply validate_time_format_spec in E as [H|(s' & -> & _)]; [done|].
  by rewrite ends_in_newline_append in Hend.
Qed.

(** C2, the claim as written fails: it says the validator returns false for
    "24:00:00", and the validator returns true. *)
Lemma validate_time_format_24_hours :
  ScheduleWindow.validate_time_format Example.int_max_str_digits "24:00:00" ≠ false.
Proof. discriminate. Qed.

(** A text is shown not to be of the form H(H):M(M):S(S) in range by going
    through the lengths its three fields can have. *)
Ltac refute_time_text :=
  let E := fresh "E" in
  let Vh := fresh "Vh" in let Vm := fresh "Vm" in let Vs := fresh "Vs" in
  intros (? & ? & ? & [[(? & -> & _)|(? & ? & -> & _ & _)] Vh]
                    & [[(? & -> & _)|(? & ? & -> & _ & _)] Vm]
                    & [[(? & -> & _)|(? & ? & -> & _ & _)] Vs] & E);
  cbv in E; try discriminate E;
  injection E as ?; subst;
  vm_compute in Vh, Vm, Vs;
  first [by apply Vh | by apply Vm | by apply Vs].

(** The general part of C2 at a text the pattern does not match, at
    seconds out of range and at hours of three digits. *)
Lemma validate_time_format_refuses_other_texts_witness :
  ScheduleWindow.validate_time_format Example.int_max_str_digits "12:34:56 pm" = false
  ∧ ScheduleWindow.validate_time_format Example.int_max_str_digits "00:00:75" = false
  ∧ ScheduleWindow.validate_time_format Example.int_max_str_digits "100:00:00" = false.
Proof.
  destruct (validate_time_format_refuses_other_texts Example.int_max_str_digits)
    as (_ & _ & _ & _ & _ & _ & H).
  split_and!; apply H; try reflexivity; refute_time_text.
Defined.

(** ** The collector *)

Lemma append_cons (c : ascii) (s t : string) : String c s +:+ t = String c (s +:+ t).
Proof. reflexivity. Qed.

Lemma append_nil (t : string) : "" +:+ t = t.
Proof. reflexivity. Qed.

Lemma length_append (s t : string) :
  String.length (s +:+ t) = (String.length s + String.length t)%nat.
Proof.
  induction s as [|c s IH]; [done|]. rewrite append_cons. cbn. by rewrite IH.
Qed.

Lemma append_inj_l (s1 s2 t : string) : s1 +:+ t = s2 +:+ t → s1 = s2.
Proof.
  revert s2. induction s1 as [|c s1 IH]; intros [|d s2] H; try done.
  - apply (f_equal String.length) in H.
    rewrite append_nil, append_cons in H. cbn in H. rewrite length_append in H. lia.
  - apply (f_equal String.length) in H.
    rewrite append_nil, append_cons in H. cbn in H. rewrite length_append in H. lia.
  - rewrite !append_cons in H. injection H as -> H. by rewrite (IH _ H).
Qed.

(** The text of a warning tells the rejection, and with it the row. *)
Lemma warning_text_inj w w' : warning_text w = warning_text w' → w = w'.
Proof.
  assert (Hrow : ∀ i j : nat, pretty (i + 1)%nat = pretty (j + 1)%nat → i = j).
  { intros i j H%(inj pretty). lia. }
  destruct w as [i|i|i|], w' as [j|j|j|]; unfold warning_text;
    rewrite ?append_cons, ?append_nil; intros H; simplify_eq; try done.
  - f_equal. apply Hrow. by apply append_inj_l in H.
  - f_equal. lia.
  - f_equal. lia.
Qed.

Section Collector_properties.

Context (MIN_TEMP MAX_TEMP : Z) (validate_time_format : string → result bool)
        (int_max_str_digits : N).

#[local] Abbreviation row_fields := ScheduleWindow.row_fields.
#[local] Abbreviation judge :=
  (ScheduleWindow.judge MIN_TEMP MAX_TEMP validate_time_format int_max_str_digits).
#[local] Abbreviation row_body :=
  (ScheduleWindow.row_body MIN_TEMP MAX_TEMP validate_time_format int_max_str_digits).
#[local] Abbreviation collect_from :=
  (ScheduleWindow.collect_from MIN_TEMP MAX_TEMP
      validate_time_format int_max_str_digits).
#[local] Abbreviation collect :=
  (ScheduleWindow.validate_and_collect_entries MIN_TEMP MAX_TEMP
     validate_time_format int_max_str_digits).
#[local] Abbreviation survivors := (survivors MIN_TEMP MAX_TEMP
    validate_time_format int_max_str_digits).
#[local] Abbreviation no_abort_from :=
  (no_abort_from MIN_TEMP MAX_TEMP validate_time_format int_max_str_digits).

Lemma row_body_index i j r : same_verdict (row_body i r) (row_body j r).
Proof.
  unfold ScheduleWindow.row_body.
  destruct (row_fields r) as [[[[[[ct st] et] tt] nt]|]|e]; cbn;
    try constructor.
  unfold ScheduleWindow.judge.
  destruct (negb _); [constructor|].
  destruct (validate_time_format tt) as [[]|e]; cbn; try constructor.
  destruct (Py.int int_max_str_digits st),
      (Py.int int_max_str_digits et); try constructor.
  destruct (negb _); constructor.
Qed.

Lemma row_body_append i j r e :
  row_body i r = Return (Append e) → row_body j r = Return (Append e).
Proof. intros H. pose proof (row_body_index i j r) as S. rewrite H in S. by inversion S. Qed.

Lemma row_body_skip i j r :
  row_body i r = Return Skip → row_body j r = Return Skip.
Proof. intros H. pose proof (row_body_index i j r) as S. rewrite H in S. by inversion S. Qed.

Lemma row_body_raise i j r e :
  row_body i r = Raise e → row_body j r = Raise e.
Proof. intros H. pose proof (row_body_index i j r) as S. rewrite H in S. by inversion S. Qed.

Lemma returned_log_error i e c : returned (log_error i e c) = returned c.
Proof. done. Qed.

Lemma shown_log_error i e c : shown (log_error i e c) = shown c.
Proof. done. Qed.

(** The value returned does not depend on where the row count starts. *)
Lemma returned_collect_from_index sw i j rows acc :
  returned (collect_from sw i rows acc) = returned (collect_from sw j rows acc).
Proof.
  revert i j acc. induction rows as [|r rows IH]; intros i j acc; cbn.
  - by destruct acc.
  - destruct (row_body_index i j r); cbn; rewrite ?returned_log_error; auto.
Qed.

(** A row that is skipped leaves the loop as it found it. *)
Lemma collect_from_skip sw i r rest acc :
  row_body i r = Return Skip →
  collect_from sw i (r :: rest) acc = collect_from sw (S i) rest acc.
Proof. intros H. cbn. by rewrite H. Qed.

Lemma no_abort_from_cons i r rows :
  no_abort_from i (r :: rows) →
  (∀ why, row_body i r ≠ Return (Abort why)) ∧ no_abort_from (S i) rows.
Proof.
  intros H. split.
  - intros why. specialize (H 0%nat r why eq_refl). by rewrite Nat.add_0_r in H.
  - intros j r' why Hj. specialize (H (S j) r' why Hj).
    by replace (S i + j)%nat with (i + S j)%nat by lia.
Qed.

Lemma survivors_cons r rows :
  survivors (r :: rows)
  = match row_body 0 r with
    | Return (Append e) => e :: survivors rows
    | _ => survivors rows
    end.
Proof.
  unfold survivors. cbn.
  by destruct (row_body 0 r) as [[]|].
Qed.

(** Past a stretch of rows none of which aborts, the loop goes on with
    the entries of that stretch appended. *)
Lemma collect_from_app sw i pre rest acc :
  no_abort_from i pre →
  shown (collect_from sw i (pre ++ rest) acc)
  = shown (collect_from sw (i + length pre) rest (acc ++ survivors pre))
  ∧ returned (collect_from sw i (pre ++ rest) acc)
    = returned (collect_from sw (i + length pre) rest (acc ++ survivors pre)).
Proof.
  revert i acc. induction pre as [|r pre IH]; intros i acc H.
  - cbn. by rewrite Nat.add_0_r, app_nil_r.
  - apply no_abort_from_cons in H as [Hr Hpre].
    replace (i + length (r :: pre))%nat with (S i + length pre)%nat by (cbn; lia).
    rewrite survivors_cons. cbn [app collect_from ScheduleWindow.collect_from].
    destruct (row_body i r) as [[|e|why]|e] eqn:E.
    + rewrite (row_body_skip _ 0 _ E). by apply IH.
    + rewrite (row_body_append _ 0 _ _ E).
      replace (acc ++ e :: survivors pre)%list with ((acc ++ [e]) ++ survivors pre)%list
        by by rewrite <- app_assoc.
      by apply IH.
    + by destruct (Hr why).
    + rewrite (row_body_raise _ 0 _ _ E), shown_log_error, returned_log_error.
      by apply IH.
Qed.

(** A row that aborts ends the call, whatever follows it. *)
Lemma collect_from_abort sw i r rest acc why :
  row_body i r = Return (Abort why) →
  collect_from sw i (r :: rest) acc = reject_with sw why.
Proof. intros H. cbn. by rewrite H. Qed.

Lemma collect_aborts_at sw pre r post why :
  no_abort_from 0 pre →
  row_body (length pre) r = Return (Abort why) →
  shown (collect sw (pre ++ r :: post))
  = (if sw then [warning_text why] else [])
  ∧ returned (collect sw (pre ++ r :: post)) = None.
Proof.
  intros Hpre Hr. unfold ScheduleWindow.validate_and_collect_entries.
  destruct (collect_from_app sw 0 pre (r :: post) [] Hpre) as [-> ->].
  by rewrite (collect_from_abort _ _ _ _ _ why Hr).
Qed.

(** A row that aborts does so whatever the rows after it are. *)
Lemma collect_from_abort_tail sw i pre r post post' acc why :
  row_body (i + length pre) r = Return (Abort why) →
  collect_from sw i (pre ++ r :: post) acc
  = collect_from sw i (pre ++ r :: post') acc.
Proof.
  revert i acc. induction pre as [|x pre IH]; intros i acc H.
  - rewrite Nat.add_0_r in H. cbn. by rewrite H.
  - cbn [app collect_from ScheduleWindow.collect_from].
    replace (i + length (x :: pre))%nat with (S i + length pre)%nat in H
      by (cbn; lia).
    destruct (row_body i x) as [[|e|w]|e]; try done;
      by rewrite (IH _ _ H).
Qed.

(** Taking a skipped or raising row out of the table does not change the
    value returned. *)
Lemma returned_without_row sw i pre r post acc :
  (row_body 0 r = Return Skip ∨ ∃ e, row_body 0 r = Raise e) →
  returned (collect_from sw i (pre ++ r :: post) acc)
  = returned (collect_from sw i (pre ++ post) acc).
Proof.
  intros Hr. revert i acc. induction pre as [|x pre IH]; intros i acc.
  - cbn [app collect_from ScheduleWindow.collect_from].
    destruct Hr as [Hr|[e Hr]].
    + rewrite (row_body_skip 0 i r Hr). apply returned_collect_from_index.
    + rewrite (row_body_raise 0 i r e Hr), returned_log_error.
      apply returned_collect_from_index.
  - cbn [app collect_from ScheduleWindow.collect_from].
    destruct (row_body i x) as [[|e|w]|e]; rewrite ?returned_log_error; auto.
Qed.

Lemma logged_collect_from_app sw i pre rest acc :
  no_abort_from i pre →
  ∃ l, logged (collect_from sw i (pre ++ rest) acc)
       = (l ++ logged (collect_from sw (i + length pre) rest
                         (acc ++ survivors pre)))%list.
Proof.
  revert i acc. induction pre as [|r pre IH]; intros i acc H.
  - exists []. cbn. by rewrite Nat.add_0_r, app_nil_r.
  - apply no_abort_from_cons in H as [Hr Hpre].
    replace (i + length (r :: pre))%nat with (S i + length pre)%nat by (cbn; lia).
    rewrite survivors_cons. cbn [app collect_from ScheduleWindow.collect_from].
    destruct (row_body i r) as [[|e|why]|e] eqn:E.
    + rewrite (row_body_skip _ 0 _ E). by apply IH.
    + rewrite (row_body_append _ 0 _ _ E).
      replace (acc ++ e :: survivors pre)%list
        with ((acc ++ [e]) ++ survivors pre)%list by by rewrite <- app_assoc.
      by apply IH.
    + by destruct (Hr why).
    + rewrite (row_body_raise _ 0 _ _ E).
      destruct (IH (S i) acc Hpre) as [l Hl].
      exists ((i, e) :: l). cbn. by rewrite Hl.
Qed.

Lemma judge_nonempty i ct st et tt nt :
  ct ≠ "" → st ≠ "" → et ≠ "" → tt ≠ "" →
  judge i ct st et tt nt
  = (time_ok ← validate_time_format tt;
     if negb time_ok then Return (Abort (InvalidTime i))
     else
       match Py.int int_max_str_digits st, Py.int int_max_str_digits et with
       | Some start_temp, Some end_temp =>
           if negb (ScheduleWindow.validate_temperature MIN_TEMP MAX_TEMP start_temp
                    && ScheduleWindow.validate_temperature MIN_TEMP MAX_TEMP end_temp)
           then Return (Abort (InvalidTemperature i))
           else Return (Append {| CycleType := ct; StartTemp := start_temp;
                                  EndTemp := end_temp; Duration := tt;
                                  Notes := nt |})
       | _, _ => Return (Abort (InvalidTemperatureFormat i))
       end).
Proof.
  intros. unfold ScheduleWindow.judge, ScheduleWindow.all_nonempty. cbn.
  by repeat match goal with
     | |- context [String.eqb ?s ""] =>
         destruct (String.eqb_spec s ""); [done|]; cbn
     end.
Qed.

Lemma judge_empty i ct st et tt nt :
  ct = "" ∨ st = "" ∨ et = "" ∨ tt = "" →
  judge i ct st et tt nt = Return Skip.
Proof.
  intros H. unfold ScheduleWindow.judge, ScheduleWindow.all_nonempty. cbn.
  assert ((negb (String.eqb ct "") && (negb (String.eqb st "")
            && (negb (String.eqb et "") && (negb (String.eqb tt "") && true))))
          = false) as ->; [|done].
  destruct H as [-> | [-> | [-> | ->]]]; cbn; by rewrite ?andb_false_r.
Qed.

Lemma validate_temperature_spec v :
  ScheduleWindow.validate_temperature MIN_TEMP MAX_TEMP v = true
  ↔ MIN_TEMP ≤ v ≤ MAX_TEMP.
Proof.
  unfold ScheduleWindow.validate_temperature.
  rewrite andb_true_iff, !Z.leb_le. tauto.
Qed.

Lemma row_body_fields i r ct st et tt nt :
  row_fields r = Return (Some (ct, st, et, tt, nt)) →
  row_body i r = judge i ct st et tt nt.
Proof. intros H. unfold ScheduleWindow.row_body. by rewrite H. Qed.

(** C6.  A row whose cycle type, start temperature, end temperature or
    duration reads as empty (the texts as the collector reads them,
    stripped) is skipped: the loop body neither rejects it nor appends an
    entry, the loop goes on with the next row and the entries unchanged,
    and the list returned is the one returned for the table without that
    row, so the row takes no place in the numbering of the entries. *)
Theorem collect_skips_row_with_empty_field r ct st et tt nt :
  row_fields r = Return (Some (ct, st, et, tt, nt)) →
  ct = "" ∨ st = "" ∨ et = "" ∨ tt = "" →
  (∀ i, row_body i r = Return Skip)
  ∧ (∀ sw i post acc,
       collect_from sw i (r :: post) acc = collect_from sw (S i) post acc)
  ∧ (∀ sw pre post,
       returned (collect sw (pre ++ r :: post))
       = returned (collect sw (pre ++ post))).
Proof.
  intros Hf He.
  assert (Hskip : ∀ i, row_body i r = Return Skip).
  { intros i. rewrite (row_body_fields _ _ _ _ _ _ _ Hf). by apply judge_empty. }
  split_and!; [done| |].
  - intros. by apply collect_from_skip.
  - intros. apply returned_without_row. by left.
Qed.

(** C7.  When no row before it is rejected, a row that is not skipped and
    whose duration fails the time validator ends the collection: the loop
    body rejects it as an invalid time at that row, the warning shown is
    the one for that rejection (none when warnings are off), nothing is
    returned, and the outcome is the same whatever rows follow, so they
    are never examined. *)
Theorem collect_fails_fast_on_invalid_time sw pre r post ct st et tt nt :
  no_abort_from 0 pre →
  row_fields r = Return (Some (ct, st, et, tt, nt)) →
  ct ≠ "" → st ≠ "" → et ≠ "" → tt ≠ "" →
  validate_time_format tt = Return false →
  row_body (length pre) r = Return (Abort (InvalidTime (length pre)))
  ∧ shown (collect sw (pre ++ r :: post))
    = (if sw then [warning_text (InvalidTime (length pre))] else [])
  ∧ returned (collect sw (pre ++ r :: post)) = None
  ∧ ∀ post', collect sw (pre ++ r :: post') = collect sw (pre ++ r :: post).
Proof.
  intros Hpre Hf ? ? ? ? Ht.
  assert (Hr : row_body (length pre) r = Return (Abort (InvalidTime (length pre)))).
  { rewrite (row_body_fields _ _ _ _ _ _ _ Hf), judge_nonempty by done.
    by rewrite Ht. }
  destruct (collect_aborts_at sw pre r post _ Hpre Hr) as [-> ->].
  split_and!; [done..|]. intros post'.
  by apply collect_from_abort_tail with (why := InvalidTime (length pre)).
Qed.

(** C8.  For a row that is not skipped, has a valid duration and is
    reached (no row before it is rejected): when a temperature text does
    not parse as an integer the row is rejected for its temperature format
    and the collection ends with that warning; when both parse and one lies
    outside [MIN_TEMP, MAX_TEMP] the row is rejected for its temperature
    and the collection ends with that warning; when both lie inside, bounds
    included, the row is accepted with the parsed values.  A text with more
    digits than the interpreter's limit allows is one that does not parse,
    whatever number its digits spell. *)
Theorem collect_checks_temperatures sw pre r post ct st et tt nt :
  no_abort_from 0 pre →
  row_fields r = Return (Some (ct, st, et, tt, nt)) →
  ct ≠ "" → st ≠ "" → et ≠ "" → tt ≠ "" →
  validate_time_format tt = Return true →
  (Py.int int_max_str_digits st = None ∨ Py.int int_max_str_digits et = None →
     row_body (length pre) r
     = Return (Abort (InvalidTemperatureFormat (length pre)))
     ∧ shown (collect sw (pre ++ r :: post))
       = (if sw then [warning_text (InvalidTemperatureFormat (length pre))] else [])
     ∧ returned (collect sw (pre ++ r :: post)) = None)
  ∧ (∀ a b, Py.int int_max_str_digits st = Some a →
         Py.int int_max_str_digits et = Some b →
       a < MIN_TEMP ∨ MAX_TEMP < a ∨ b < MIN_TEMP ∨ MAX_TEMP < b →
       row_body (length pre) r = Return (Abort (InvalidTemperature (length pre)))
       ∧ shown (collect sw (pre ++ r :: post))
         = (if sw then [warning_text (InvalidTemperature (length pre))] else [])
       ∧ returned (collect sw (pre ++ r :: post)) = None)
  ∧ (∀ a b, Py.int int_max_str_digits st = Some a →
         Py.int int_max_str_digits et = Some b →
       MIN_TEMP ≤ a ≤ MAX_TEMP → MIN_TEMP ≤ b ≤ MAX_TEMP →
       row_body (length pre) r
       = Return (Append {| CycleType := ct; StartTemp := a; EndTemp := b;
                           Duration := tt; Notes := nt |}))
  ∧ (MIN_TEMP ≤ MAX_TEMP →
       ScheduleWindow.validate_temperature MIN_TEMP MAX_TEMP MIN_TEMP = true
       ∧ ScheduleWindow.validate_temperature MIN_TEMP MAX_TEMP MAX_TEMP = true)
  ∧ ((640 ≤ int_max_str_digits)%N →
     (int_max_str_digits < Py.digit_count st)%N
     ∨ (int_max_str_digits < Py.digit_count et)%N →
     Py.int int_max_str_digits st = None ∨ Py.int int_max_str_digits et = None).
Proof.
  intros Hpre Hf ? ? ? ? Ht.
  assert (Hr : ∀ i, row_body i r
    = match Py.int int_max_str_digits st, Py.int int_max_str_digits et with
      | Some a, Some b =>
          if negb (ScheduleWindow.validate_temperature MIN_TEMP MAX_TEMP a
                   && ScheduleWindow.validate_temperature MIN_TEMP MAX_TEMP b)
          then Return (Abort (InvalidTemperature i))
          else Return (Append {| CycleType := ct; StartTemp := a; EndTemp := b;
                                 Duration := tt; Notes := nt |})
      | _, _ => Return (Abort (InvalidTemperatureFormat i))
      end).
  { intros i. rewrite (row_body_fields _ _ _ _ _ _ _ Hf), judge_nonempty by done.
    by rewrite Ht. }
  split_and!.
  - intros Hp.
    assert (Hb : row_body (length pre) r
                 = Return (Abort (InvalidTemperatureFormat (length pre)))).
    { rewrite Hr. destruct Hp as [-> | ->]; [done|].
      by destruct (Py.int int_max_str_digits st). }
    split; [done|]. by apply collect_aborts_at.
  - intros a b Ha Hb Hout.
    assert (Hv : row_body (length pre) r
                 = Return (Abort (InvalidTemperature (length pre)))).
    { rewrite Hr, Ha, Hb.
      destruct (ScheduleWindow.validate_temperature _ _ a) eqn:Va;
        destruct (ScheduleWindow.validate_temperature _ _ b) eqn:Vb; try done.
      apply validate_temperature_spec in Va, Vb. lia. }
    split; [done|]. by apply collect_aborts_at.
  - intros a b Ha Hb Hin1 Hin2. rewrite Hr, Ha, Hb.
    apply validate_temperature_spec in Hin1, Hin2. by rewrite Hin1, Hin2.
  - intros Hle. rewrite !validate_temperature_spec. lia.
  - intros Hn [Hlong|Hlong]; [left|right]; by apply int_too_many_digits.
Qed.

(** C10.  When the loop body raises on a row, the exception is logged
    with the row number and the loop goes on with the next row: the row
    adds no entry and no warning, the list returned is the one returned
    for the table without that row, and, when no earlier row is rejected,
    the log of the call holds the record of that row. *)
Theorem collect_logs_and_skips_raising_row pre r e :
  row_body (length pre) r = Raise e →
  (∀ sw post acc,
     collect_from sw (length pre) (r :: post) acc
     = log_error (length pre) e (collect_from sw (S (length pre)) post acc))
  ∧ (∀ sw post,
       returned (collect sw (pre ++ r :: post))
       = returned (collect sw (pre ++ post)))
  ∧ (∀ sw post, no_abort_from 0 pre →
       (length pre, e) ∈ logged (collect sw (pre ++ r :: post))
       ∧ shown (collect sw (pre ++ r :: post))
         = shown (collect_from sw (S (length pre)) post (survivors pre))).
Proof.
  intros Hr. split_and!.
  - intros. cbn. by rewrite Hr.
  - intros. apply returned_without_row. right. exists e.
    by apply row_body_raise with (i := length pre).
  - intros sw post Hpre. unfold ScheduleWindow.validate_and_collect_entries.
    destruct (logged_collect_from_app sw 0 pre (r :: post) [] Hpre) as [l ->].
    destruct (collect_from_app sw 0 pre (r :: post) [] Hpre) as [-> _].
    cbn. rewrite Hr. cbn. split; [|done].
    apply elem_of_app. right. apply elem_of_cons. by left.
Qed.

End Collector_properties.

(** ** The store *)

Section Store_properties.

Context {E D : Type} (with_sqlite3 : string → E → D → saved D).

#[local] Abbreviation save_schedule := (save_schedule with_sqlite3).

Lemma sqlite3_is_not_bound : LOAD_GLOBAL "sqlite3" = Raise NameError.
Proof. reflexivity. Qed.

(** Whatever it is called with, and whatever [sqlite3] would do, a call of
    [save_schedule] raises [NameError], prints nothing and leaves the
    database file as it was. *)
Lemma save_schedule_raises_NameError name (entries : E) (db : D) :
  save_schedule name entries db
  = {| outcome := Raise NameError; printed := []; database := db |}.
Proof. unfold save_schedule. by rewrite sqlite3_is_not_bound. Qed.

(** C4.  Every call of save leaves the database exactly as it was, so
    none of its entries is committed and no part of the list is: the call
    raises before a connection is opened. *)
Theorem save_schedule_all_or_nothing name (entries : E) (db : D) :
  database (save_schedule name entries db) = db
  ∧ ∃ e, outcome (save_schedule name entries db) = Raise e.
Proof. rewrite save_schedule_raises_NameError. split; [done|by eexists]. Qed.

(** C5, as the code behaves.  No call of save returns a boolean, neither
    true nor false. *)
Theorem save_schedule_returns_no_boolean name (entries : E) (db : D) b :
  outcome (save_schedule name entries db) ≠ Return (PyBool b).
Proof. by rewrite save_schedule_raises_NameError. Qed.

End Store_properties.

(** ** The statements at concrete inputs *)

Module Scenario.

Import Example.

Lemma no_abort_from_nil i :
  no_abort_from MIN_TEMP MAX_TEMP time_validator int_max_str_digits i [].
Proof. intros j r why H. destruct j; discriminate H. Defined.

(** C1 at the name "T1", one Ramp entry and an empty database file: the
    call raises [NameError] and the file stays empty, so there is nothing
    to load. *)
Example save_schedule_stores_nothing_to_load :
  outcome (save "T1" [ramp_tuple] ∅) = Raise NameError
  ∧ printed (save "T1" [ramp_tuple] ∅) = []
  ∧ database (save "T1" [ramp_tuple] ∅) = ∅.
Proof. split_and!; reflexivity. Qed.

(** C3 at two calls under the name "T1": both raise [NameError], and the
    database file holds neither list's rows afterwards. *)
Example save_schedule_twice_stores_nothing :
  outcome (save "T1" [ramp_tuple] ∅) = Raise NameError
  ∧ outcome (save "T1" [soak_tuple] (database (save "T1" [ramp_tuple] ∅)))
    = Raise NameError
  ∧ database (save "T1" [soak_tuple] (database (save "T1" [ramp_tuple] ∅))) = ∅.
Proof. split_and!; reflexivity. Qed.

(** C5, the claim as written fails: on a call that should succeed save
    neither returns true nor false nor raises a storage error; it raises
    [NameError]. *)
Lemma save_schedule_raises_no_storage_error :
  outcome (save "T1" [ramp_tuple] ∅) = Raise NameError
  ∧ is_sqlite3_Error NameError = false
  ∧ outcome (save "T1" [ramp_tuple] ∅) ≠ Return (PyBool true).
Proof. split_and!; [reflexivity..|discriminate]. Qed.

(** C6 at the table of one filled row followed by one blank row. *)
Lemma collect_skips_row_with_empty_field_witness :
  ScheduleWindow.row_fields blank_row = Return (Some ("", "", "", "", ""))
  ∧ returned (collect true [ramp_row; blank_row]) = Some [ramp].
Proof.
  assert (H : ScheduleWindow.row_fields blank_row = Return (Some ("", "", "", "", "")))
    by reflexivity.
  split; [exact H|].
  pose proof (collect_skips_row_with_empty_field MIN_TEMP MAX_TEMP
                time_validator int_max_str_digits blank_row "" "" "" "" "" H
                (or_introl eq_refl)) as (_ & _ & Hret).
  exact (eq_trans (Hret true [ramp_row] []) eq_refl).
Defined.

Lemma no_abort_two :
  no_abort_from MIN_TEMP MAX_TEMP
      time_validator int_max_str_digits 0 [ramp_row; blank_row].
Proof.
  intros [|[|j]] r why H; cbn in H; try discriminate H;
    injection H as <-; vm_compute; discriminate.
Defined.

(** C7 at a filled row, a blank row, then a row with the duration
    "bad-time" and a further invalid row: the warning names the third row
    and the row after it is not reported. *)
Lemma collect_fails_fast_on_invalid_time_witness :
  time_validator "bad-time" = Return false
  ∧ ScheduleWindow.row_body MIN_TEMP MAX_TEMP
      time_validator int_max_str_digits 2 bad_time_row
    = Return (Abort (InvalidTime 2))
  ∧ shown (collect true [ramp_row; blank_row; bad_time_row; bad_format_row])
    = ["Invalid time format in row 3. Use HH:MM:SS"]
  ∧ returned (collect true [ramp_row; blank_row; bad_time_row; bad_format_row])
    = None.
Proof.
  assert (H : time_validator "bad-time" = Return false) by reflexivity.
  split; [exact H|].
  pose proof (collect_fails_fast_on_invalid_time MIN_TEMP MAX_TEMP
               
                    time_validator int_max_str_digits true [ramp_row; blank_row] bad_time_row
                [bad_format_row] "Soak" "20" "200" "bad-time" ""
                no_abort_two eq_refl
                ltac:(discriminate) ltac:(discriminate) ltac:(discriminate)
                ltac:(discriminate) H) as (Hb & Hs & Hr & _).
  split; [exact Hb|]. split; [exact Hs|exact Hr].
Defined.

(** C8 at four one-row tables: a start temperature that reads "abc", an
    end temperature above the upper bound, an end temperature equal to the
    upper bound, and a start temperature of 4301 digits under the default
    limit of 4300. *)
Lemma collect_checks_temperatures_witness :
  time_validator "01:00:00" = Return true
  ∧ Py.int int_max_str_digits "abc" = None
  ∧ shown (collect true [bad_format_row]) = ["Invalid temperature format in row 1"]
  ∧ returned (collect true [bad_format_row]) = None
  ∧ shown (collect true [too_hot_row]) = ["Invalid temperature in row 1"]
  ∧ returned (collect true [too_hot_row]) = None
  ∧ ScheduleWindow.row_body MIN_TEMP MAX_TEMP time_validator int_max_str_digits 0
      (line_edits "Ramp" "0" "1500" "01:00:00" "")
    = Return (Append {| CycleType := "Ramp"; StartTemp := 0; EndTemp := 1500;
                        Duration := "01:00:00"; Notes := "" |})
  ∧ Py.digit_count long_literal = 4301%N
  ∧ shown (collect true [too_long_row]) = ["Invalid temperature format in row 1"]
  ∧ returned (collect true [too_long_row]) = None.
Proof.
  assert (H : time_validator "01:00:00" = Return true) by reflexivity.
  assert (Hp : Py.int int_max_str_digits "abc" = None) by reflexivity.
  assert (Hc : Py.digit_count long_literal = 4301%N) by (vm_compute; reflexivity).
  split; [exact H|]. split; [exact Hp|].
  pose proof (collect_checks_temperatures MIN_TEMP MAX_TEMP time_validator
                int_max_str_digits
                true [] bad_format_row [] "Ramp" "abc" "200" "01:00:00" ""
                (no_abort_from_nil 0) eq_refl
                ltac:(discriminate) ltac:(discriminate) ltac:(discriminate)
                ltac:(discriminate) H) as (Hformat & _).
  pose proof (collect_checks_temperatures MIN_TEMP MAX_TEMP time_validator
                int_max_str_digits
                true [] too_hot_row [] "Ramp" "20" "1501" "01:00:00" ""
                (no_abort_from_nil 0) eq_refl
                ltac:(discriminate) ltac:(discriminate) ltac:(discriminate)
                ltac:(discriminate) H) as (_ & Hrange & _).
  pose proof (collect_checks_temperatures MIN_TEMP MAX_TEMP time_validator
                int_max_str_digits
                true [] (line_edits "Ramp" "0" "1500" "01:00:00" "") []
                "Ramp" "0" "1500" "01:00:00" ""
                (no_abort_from_nil 0) eq_refl
                ltac:(discriminate) ltac:(discriminate) ltac:(discriminate)
                ltac:(discriminate) H) as (_ & _ & Haccept & _).
  pose proof (collect_checks_temperatures MIN_TEMP MAX_TEMP time_validator
                int_max_str_digits
                true [] too_long_row [] "Ramp" long_literal "200" "01:00:00" ""
                (no_abort_from_nil 0) ltac:(vm_compute; reflexivity)
                ltac:(discriminate) ltac:(vm_compute; discriminate)
                ltac:(discriminate) ltac:(discriminate) H)
    as (Hlong & _ & _ & _ & Hlimit).
  destruct (Hformat (or_introl Hp)) as (_ & Hs1 & Hr1).
  destruct (Hrange 20 1501 eq_refl eq_refl
              ltac:(unfold MIN_TEMP, MAX_TEMP; lia)) as (_ & Hs2 & Hr2).
  assert (Hn : (640 ≤ int_max_str_digits)%N) by (vm_compute; discriminate).
  assert (Hover : (int_max_str_digits < Py.digit_count long_literal)%N)
    by (vm_compute; reflexivity).
  destruct (Hlong (Hlimit Hn (or_introl Hover))) as (_ & Hs3 & Hr3).
  split; [exact Hs1|]. split; [exact Hr1|]. split; [exact Hs2|]. split; [exact Hr2|].
  split; [|split; [exact Hc|split; [exact Hs3|exact Hr3]]].
  exact (Haccept 0 1500 eq_refl eq_refl
           ltac:(unfold MIN_TEMP, MAX_TEMP; lia)
           ltac:(unfold MIN_TEMP, MAX_TEMP; lia)).
Defined.

(** C9 at a table of a filled row, a blank row and a second filled row:
    the collector returns the two entries in table order, and saving them
    raises [NameError] and stores nothing, so no cycle number is assigned. *)
Example collected_entries_are_not_stored :
  returned (collect true [ramp_row; blank_row; soak_row]) = Some [ramp; soak]
  ∧ outcome (save "T1" [ramp; soak] ∅) = Raise NameError
  ∧ database (save "T1" [ramp; soak] ∅) = ∅.
Proof. split_and!; vm_compute; reflexivity. Qed.

Lemma no_abort_one :
  no_abort_from MIN_TEMP MAX_TEMP time_validator int_max_str_digits 0 [ramp_row].
Proof.
  intros [|j] r why H; cbn in H; try discriminate H;
    injection H as <-; vm_compute; discriminate.
Defined.

(** C10 at a table whose second row has a line edit where the combo box
    should be, between two filled rows. *)
Lemma collect_logs_and_skips_raising_row_witness :
  ScheduleWindow.row_body MIN_TEMP MAX_TEMP
      time_validator int_max_str_digits 1 wrong_widget_row
  = Raise AttributeError
  ∧ returned (collect true [ramp_row; wrong_widget_row; soak_row])
    = Some [ramp; soak]
  ∧ (1%nat, AttributeError)
    ∈ logged (collect true [ramp_row; wrong_widget_row; soak_row])
  ∧ shown (collect true [ramp_row; wrong_widget_row; soak_row]) = [].
Proof.
  assert (H : ScheduleWindow.row_body MIN_TEMP MAX_TEMP
      time_validator int_max_str_digits 1
                wrong_widget_row = Raise AttributeError) by reflexivity.
  pose proof (collect_logs_and_skips_raising_row MIN_TEMP MAX_TEMP
               
                    time_validator int_max_str_digits [ramp_row] wrong_widget_row AttributeError H)
    as (_ & Hret & Hlog).
  destruct (Hlog true [soak_row] no_abort_one) as [Hin Hshown].
  split; [exact H|]. split; [|split; [exact Hin|exact Hshown]].
  exact (eq_trans (Hret true [soak_row]) eq_refl).
Defined.

End Scenario.

(** * Further properties *)

(** ** Stripping *)

Lemma rstrip_cons c r :
  Py.rstrip (String c r)
  = if Py.isspace c && String.eqb (Py.rstrip r) "" then "" else String c (Py.rstrip r).
Proof. reflexivity. Qed.

Lemma lstrip_cons c r :
  Py.lstrip (String c r) = if Py.isspace c then Py.lstrip r else String c r.
Proof. reflexivity. Qed.

(** What [rstrip] leaves does not end in whitespace. *)
Lemma rstrip_last s : ∀ u c, Py.rstrip s = u +:+ String c "" → Py.isspace c = false.
Proof.
  induction s as [|c0 r IH]; intros u c.
  - cbn. by destruct u.
  - rewrite rstrip_cons.
    destruct (Py.isspace c0) eqn:Hc0, (String.eqb_spec (Py.rstrip r) "") as [E|E]; cbn.
    + by destruct u.
    + destruct u as [|d u]; rewrite ?append_nil, ?append_cons; intros [= -> H]; [done|].
      by apply (IH u c).
    + destruct u as [|d u]; rewrite ?append_nil, ?append_cons; intros [= -> H]; [done|].
      by apply (IH u c).
    + destruct u as [|d u]; rewrite ?append_nil, ?append_cons; intros [= -> H]; [done|].
      by apply (IH u c).
Qed.

(** What [lstrip] leaves does not start with whitespace. *)
Lemma lstrip_head s c r : Py.lstrip s = String c r → Py.isspace c = false.
Proof.
  induction s as [|c0 s IH]; [done|]. rewrite lstrip_cons.
  destruct (Py.isspace c0) eqn:Hc0; [done|]. by intros [= <- _].
Qed.

Lemma rstrip_head s c r :
  Py.rstrip s = String c r → ∃ r0, s = String c r0.
Proof.
  destruct s as [|c0 r0]; [done|]. rewrite rstrip_cons.
  destruct (_ && _); [done|]. intros [= <- _]. by exists r0.
Qed.

Lemma strip_head s c r : Py.strip s = String c r → Py.isspace c = false.
Proof.
  unfold Py.strip. intros [r0 H]%rstrip_head. by apply lstrip_head in H.
Qed.

Lemma lstrip_fixed s :
  (∀ c r, s = String c r → Py.isspace c = false) → Py.lstrip s = s.
Proof.
  destruct s as [|c r]; [done|]. intros H. rewrite lstrip_cons.
  by rewrite (H c r eq_refl).
Qed.

Lemma rstrip_idem s : Py.rstrip (Py.rstrip s) = Py.rstrip s.
Proof.
  induction s as [|c r IH]; [done|]. rewrite rstrip_cons.
  destruct (Py.isspace c && String.eqb (Py.rstrip r) "") eqn:E; [done|].
  by rewrite rstrip_cons, IH, E.
Qed.

(** Stripping twice is stripping once. *)
Lemma strip_idem s : Py.strip (Py.strip s) = Py.strip s.
Proof.
  unfold Py.strip at 1. rewrite lstrip_fixed.
  - unfold Py.strip. apply rstrip_idem.
  - intros c r. apply strip_head.
Qed.

Lemma rstrip_blank w : blank w = true → Py.rstrip w = "".
Proof.
  induction w as [|c w IH]; [done|]. cbn [blank]. intros [Hc Hw]%andb_true_iff.
  by rewrite rstrip_cons, Hc, (IH Hw).
Qed.

Lemma lstrip_blank w : blank w = true → Py.lstrip w = "".
Proof.
  induction w as [|c w IH]; [done|]. cbn [blank]. intros [Hc Hw]%andb_true_iff.
  by rewrite lstrip_cons, Hc, (IH Hw).
Qed.

Lemma rstrip_append_blank s w :
  blank w = true → Py.rstrip (s +:+ w) = Py.rstrip s.
Proof.
  intros Hw. induction s as [|c s IH].
  - rewrite append_nil. by apply rstrip_blank.
  - by rewrite append_cons, !rstrip_cons, IH.
Qed.

Lemma lstrip_blank_append w s :
  blank w = true → Py.lstrip (w +:+ s) = Py.lstrip s.
Proof.
  induction w as [|c w IH]; [done|]. cbn [blank]. intros [Hc Hw]%andb_true_iff.
  by rewrite append_cons, lstrip_cons, Hc, (IH Hw).
Qed.

Lemma lstrip_append s w :
  Py.lstrip (s +:+ w) = if blank s then Py.lstrip w else Py.lstrip s +:+ w.
Proof.
  induction s as [|c s IH]; [done|].
  rewrite append_cons, !lstrip_cons. cbn [blank].
  destruct (Py.isspace c); [by rewrite IH|done].
Qed.

(** Whitespace around a text does not change what stripping gives. *)
Lemma strip_padded a s b :
  blank a = true → blank b = true → Py.strip (a +:+ s +:+ b) = Py.strip s.
Proof.
  intros Ha Hb. unfold Py.strip. rewrite (lstrip_blank_append a _ Ha), lstrip_append.
  destruct (blank s) eqn:Hs.
  - by rewrite (lstrip_blank b Hb), (lstrip_blank s Hs).
  - by apply rstrip_append_blank.
Qed.

(** ** More on the time validator *)

(** X1.  The validator returns true exactly when [TIME_PATTERN] matches:
    the test for an empty text and the range check on the three numbers
    never change the answer. *)
Theorem validate_time_format_is_the_pattern n s :
  ScheduleWindow.validate_time_format n s = true
  ↔ is_Some (Re.TIME_PATTERN_match s).
Proof.
  split.
  - unfold ScheduleWindow.validate_time_format.
    destruct (String.eqb s ""); [done|].
    destruct (Re.TIME_PATTERN_match s); [eauto|done].
  - intros [[[h m] sec] H]. apply validate_time_format_spec.
    apply TIME_PATTERN_match_spec in H as (Hh & Hm & Hs & tail & Ht & ->).
    apply captured_hours in Hh. apply captured_minutes in Hm, Hs.
    destruct Ht as [-> | ->].
    + left. exists h, m, sec. by rewrite append_empty_r.
    + right. exists (h +:+ ":" +:+ m +:+ ":" +:+ sec).
      split; [by rewrite !append_assoc|]. by exists h, m, sec.
Qed.

(** ** More on the collector *)

Section Collector_further.

Context (MIN_TEMP MAX_TEMP : Z) (validate_time_format : string → result bool)
        (int_max_str_digits : N).

#[local] Abbreviation row_fields := ScheduleWindow.row_fields.
#[local] Abbreviation judge :=
  (ScheduleWindow.judge MIN_TEMP MAX_TEMP validate_time_format int_max_str_digits).
#[local] Abbreviation row_body :=
  (ScheduleWindow.row_body MIN_TEMP MAX_TEMP validate_time_format int_max_str_digits).
#[local] Abbreviation collect_from :=
  (ScheduleWindow.collect_from MIN_TEMP MAX_TEMP
      validate_time_format int_max_str_digits).
#[local] Abbreviation collect :=
  (ScheduleWindow.validate_and_collect_entries MIN_TEMP MAX_TEMP
     validate_time_format int_max_str_digits).
#[local] Abbreviation survivors := (survivors MIN_TEMP MAX_TEMP
    validate_time_format int_max_str_digits).
#[local] Abbreviation no_abort_from :=
  (no_abort_from MIN_TEMP MAX_TEMP validate_time_format int_max_str_digits).
#[local] Abbreviation passed_checks :=
  (passed_checks MIN_TEMP MAX_TEMP validate_time_format).

Lemma collect_from_shape sw rows :
  ∀ i acc,
    match returned (collect_from sw i rows acc) with
    | Some es => es ≠ [] ∧ shown (collect_from sw i rows acc) = []
    | None =>
        ∃ why, shown (collect_from sw i rows acc)
               = if sw then [warning_text why] else []
    end.
Proof.
  induction rows as [|r rows IH]; intros i acc; cbn.
  - destruct acc; cbn; [by exists NoValidEntries|done].
  - destruct (row_body i r) as [[|e|why]|e]; cbn; try apply IH.
    by exists why.
Qed.

(** X3.  A call of the collector ends in one of two ways: it returns a
    list, which is then not empty, and shows no warning; or it returns
    None after exactly one warning (after none when warnings are off). *)
Theorem collect_returns_entries_or_warns sw rows :
  match returned (collect sw rows) with
  | Some es => es ≠ [] ∧ shown (collect sw rows) = []
  | None =>
      ∃ why, shown (collect sw rows) = if sw then [warning_text why] else []
  end.
Proof. apply collect_from_shape. Qed.

Lemma collect_from_flag rows :
  ∀ i acc,
    returned (collect_from true i rows acc) = returned (collect_from false i rows acc)
    ∧ logged (collect_from true i rows acc) = logged (collect_from false i rows acc)
    ∧ shown (collect_from false i rows acc) = [].
Proof.
  induction rows as [|r rows IH]; intros i acc; cbn.
  - by destruct acc.
  - destruct (row_body i r) as [[|e|why]|e]; cbn; try apply IH; [done|].
    destruct (IH (S i) acc) as (-> & -> & ->). done.
Qed.

(** X4.  [show_warnings] decides only whether the warning is shown: with it
    off no message box appears, and the value returned and the log are
    those of the call with it on. *)
Theorem show_warnings_only_silences rows :
  returned (collect false rows) = returned (collect true rows)
  ∧ logged (collect false rows) = logged (collect true rows)
  ∧ shown (collect false rows) = [].
Proof.
  unfold ScheduleWindow.validate_and_collect_entries.
  destruct (collect_from_flag rows 0 []) as (H1 & H2 & H3). by rewrite H1, H2.
Qed.

Lemma row_fields_stripped r ct st et tt nt :
  row_fields r = Return (Some (ct, st, et, tt, nt)) →
  Py.strip tt = tt ∧ Py.strip nt = nt.
Proof.
  unfold ScheduleWindow.row_fields.
  destruct (cell0 r) as [w0|], (cell1 r) as [w1|], (cell2 r) as [w2|],
    (cell3 r) as [w3|]; try done.
  destruct w0 as [s0|s0], w1 as [s1|s1], w2 as [s2|s2], w3 as [s3|s3]; try done.
  cbn. destruct (cell4 r) as [[s4|s4]|]; cbn; try done.
  - intros [= <- <- <- <- <-]. by rewrite !strip_idem.
  - intros [= <- <- <- <- <-]. by rewrite !strip_idem.
Qed.

Lemma row_body_append_passed i r e :
  row_body i r = Return (Append e) → passed_checks e.
Proof.
  unfold ScheduleWindow.row_body.
  destruct (row_fields r) as [[[[[[ct st] et] tt] nt]|]|e'] eqn:Hf; cbn; try done.
  apply row_fields_stripped in Hf as [Htt Hnt].
  unfold ScheduleWindow.judge, ScheduleWindow.all_nonempty. cbn.
  destruct (String.eqb_spec ct ""); [done|].
  destruct (String.eqb_spec st ""); [done|].
  destruct (String.eqb_spec et ""); [done|].
  destruct (String.eqb_spec tt ""); [done|]. cbn.
  destruct (validate_time_format tt) as [[]|e'] eqn:Ht; cbn; try done.
  destruct (Py.int int_max_str_digits st) as [a|],
      (Py.int int_max_str_digits et) as [b|]; try done.
  destruct (ScheduleWindow.validate_temperature _ _ a) eqn:Va;
    destruct (ScheduleWindow.validate_temperature _ _ b) eqn:Vb; try done.
  cbn. intros [= <-]. by split_and!.
Qed.

Lemma collect_from_passed sw rows :
  ∀ i acc es,
    Forall passed_checks acc →
    returned (collect_from sw i rows acc) = Some es →
    Forall passed_checks es.
Proof.
  induction rows as [|r rows IH]; intros i acc es Hacc; cbn.
  - destruct acc; [done|]. by intros [= <-].
  - destruct (row_body i r) as [[|e|why]|e] eqn:E; cbn.
    + by apply IH.
    + apply IH. apply Forall_app. split; [done|].
      apply Forall_singleton. by eapply row_body_append_passed.
    + done.
    + by apply IH.
Qed.

(** X5.  Every entry the collector returns went through its checks: the
    cycle type and the duration are not empty, the imported time validator
    accepted the duration, [validate_temperature] accepted both
    temperatures, and the duration and the notes carry no whitespace
    around them. *)
Theorem collect_returns_checked_entries sw rows es :
  returned (collect sw rows) = Some es → Forall passed_checks es.
Proof. apply collect_from_passed. constructor. Qed.

(** X6.  A table in which every row is skipped or raises, the table
    without rows among them, yields None and the warning that there are no
    valid entries. *)
Theorem collect_without_survivors sw rows :
  (∀ (i : nat) r, rows !! i = Some r →
     row_body i r = Return Skip ∨ ∃ e, row_body i r = Raise e) →
  returned (collect sw rows) = None
  ∧ shown (collect sw rows) = (if sw then [warning_text NoValidEntries] else []).
Proof.
  intros H.
  assert (Hno : no_abort_from 0 rows).
  { intros j r why Hj Hr. destruct (H j r Hj) as [E|[e E]]; cbn in Hr; congruence. }
  assert (Hs : survivors rows = []).
  { unfold survivors. apply list_eq. intros j. rewrite lookup_nil.
    apply eq_None_not_Some. intros [e He].
    apply list_elem_of_lookup_2, list_elem_of_omap in He as (r & Hr & Hre).
    apply list_elem_of_lookup in Hr as [k Hk].
    destruct (row_body 0 r) as [[|e'|]|] eqn:E; try done.
    apply (row_body_append MIN_TEMP MAX_TEMP
        validate_time_format int_max_str_digits 0 k) in E.
    destruct (H k r Hk) as [E'|[x E']]; congruence. }
  unfold ScheduleWindow.validate_and_collect_entries.
  destruct (collect_from_app MIN_TEMP MAX_TEMP validate_time_format int_max_str_digits
              sw 0 rows [] [] Hno) as [Hshown Hret].
  rewrite app_nil_r in Hshown, Hret. rewrite Hshown, Hret, Hs. done.
Qed.

Lemma row_fields_pad_row p1 p2 p3 p4 r :
  blank p1.1 = true → blank p1.2 = true → blank p2.1 = true → blank p2.2 = true →
  blank p3.1 = true → blank p3.2 = true → blank p4.1 = true → blank p4.2 = true →
  row_fields (pad_row p1 p2 p3 p4 r) = row_fields r.
Proof.
  intros. unfold ScheduleWindow.row_fields, pad_row. cbn.
  destruct (cell0 r) as [w0|], (cell1 r) as [[s1|s1]|], (cell2 r) as [[s2|s2]|],
    (cell3 r) as [[s3|s3]|], (cell4 r) as [[s4|s4]|]; cbn; try done;
    destruct w0; cbn; try done;
    by rewrite ?strip_padded.
Qed.

Lemma collect_from_same_row sw pre r r' post :
  (∀ i, row_body i r' = row_body i r) →
  ∀ i acc, collect_from sw i (pre ++ r' :: post) acc
           = collect_from sw i (pre ++ r :: post) acc.
Proof.
  intros H. induction pre as [|x pre IH]; intros i acc; cbn.
  - by rewrite H.
  - destruct (row_body i x) as [[|e|why]|e]; by rewrite ?IH.
Qed.

(** X7.  Whitespace around the texts of the start temperature, the end
    temperature, the duration and the notes of a row changes nothing: the
    loop body gives the same verdict and the whole call gives the same
    result. *)
Theorem collect_ignores_surrounding_whitespace sw pre r post p1 p2 p3 p4 :
  blank p1.1 = true → blank p1.2 = true → blank p2.1 = true → blank p2.2 = true →
  blank p3.1 = true → blank p3.2 = true → blank p4.1 = true → blank p4.2 = true →
  (∀ i, row_body i (pad_row p1 p2 p3 p4 r) = row_body i r)
  ∧ collect sw (pre ++ pad_row p1 p2 p3 p4 r :: post) = collect sw (pre ++ r :: post).
Proof.
  intros.
  assert (Hb : ∀ i, row_body i (pad_row p1 p2 p3 p4 r) = row_body i r).
  { intros i. unfold ScheduleWindow.row_body. by rewrite row_fields_pad_row. }
  split; [done|]. by apply collect_from_same_row.
Qed.

End Collector_further.

(** ** The methods that save *)

Section Session.

Context (MIN_TEMP MAX_TEMP : Z)
        (validate_time_format : string → result bool)
        (int_max_str_digits : N)
        (store_state : Type)
        (DatabaseManager_save_schedule :
           string → store_data → store_state → result bool * store_state)
        (update_schedule_menu : option (result unit)).

#[local] Abbreviation collect :=
  (ScheduleWindow.validate_and_collect_entries MIN_TEMP MAX_TEMP
     validate_time_format int_max_str_digits true).
#[local] Abbreviation update_schedule :=
  (Dialog.update_schedule MIN_TEMP MAX_TEMP
      validate_time_format int_max_str_digits store_state
     DatabaseManager_save_schedule update_schedule_menu).
#[local] Abbreviation save_as_schedule :=
  (Dialog.save_as_schedule MIN_TEMP MAX_TEMP
      validate_time_format int_max_str_digits store_state
     DatabaseManager_save_schedule update_schedule_menu).

Lemma formatted_data_cons e es :
  formatted_data (e :: es) = inl (KeyError (KeyInt 0)).
Proof. reflexivity. Qed.

Lemma returned_collect_nonempty table es :
  returned (collect table) = Some es → es ≠ [].
Proof.
  intros H.
  pose proof (collect_from_shape MIN_TEMP MAX_TEMP
      validate_time_format int_max_str_digits
                true table 0 []) as S.
  unfold ScheduleWindow.validate_and_collect_entries in H.
  rewrite H in S. by destruct S.
Qed.

Lemma Accept_not_collected c : Accept ∉ collect_events c.
Proof.
  unfold collect_events. rewrite elem_of_app, !list_elem_of_fmap.
  intros [(p & [=] & _)|(w & [=] & _)].
Qed.

Lemma ShowInformation_not_collected m c : ShowInformation m ∉ collect_events c.
Proof.
  unfold collect_events. rewrite elem_of_app, !list_elem_of_fmap.
  intros [(p & [=] & _)|(w & [=] & _)].
Qed.

(** X13.  [update_schedule] never gets to the store.  When the collector
    returns entries, these are dictionaries, and building the first tuple
    from entry[0] raises KeyError(0): the dialog shows the failure box
    with that error and prints it; the table name is not read, the store
    is not called and its state stays as it was.  When the collector
    returns None only its own log records and warning are seen. *)
Theorem update_schedule_stops_at_the_first_key table_name table st :
  update_schedule table_name table st
  = ((collect_events (collect table)
      ++ match returned (collect table) with
         | Some _ => [ShowCritical (FailedToUpdate (KeyError (KeyInt 0)));
                      Print (ErrorDetails (KeyError (KeyInt 0)))]
         | None => []
         end)%list, st).
Proof.
  unfold Dialog.update_schedule. cbv zeta.
  destruct (returned (collect table)) as [[|e es]|] eqn:E; cbv beta iota.
  - by apply returned_collect_nonempty in E.
  - by rewrite formatted_data_cons.
  - by rewrite app_nil_r.
Qed.

(** X14.  What [save_as_schedule] does to the store: when the name dialog
    was confirmed with a name that is not empty and the collector returned
    entries, the state of the store afterwards is the one that a single
    call of the store with that name and the collected dictionaries
    leaves, whatever the call answers; in every other case it is the state
    before. *)
Theorem save_as_schedule_store_state name ok table st :
  (save_as_schedule name ok table st).2
  = if ok && negb (String.eqb name "") then
      match returned (collect table) with
      | Some entries => (DatabaseManager_save_schedule name (Dicts entries) st).2
      | None => st
      end
    else st.
Proof.
  unfold Dialog.save_as_schedule. cbv zeta.
  destruct (ok && negb (String.eqb name "")); [|done].
  destruct (returned (collect table)) as [[|e es]|] eqn:E; cbv beta iota.
  - by apply returned_collect_nonempty in E.
  - destruct (DatabaseManager_save_schedule name (Dicts (e :: es)) st)
      as [[[|]|x] st']; cbn; [|done..].
    unfold Dialog.after_success.
    by destruct update_schedule_menu as [[|]|].
  - done.
Qed.

Lemma save_as_schedule_events name table st es :
  name ≠ "" → returned (collect table) = Some es →
  (save_as_schedule name true table st).1
  = (collect_events (collect table)
     ++ [Print (AttemptingToSave name); Print (DataToSave es)]
     ++ match (DatabaseManager_save_schedule name (Dicts es) st).1 with
        | Return true =>
            match update_schedule_menu with
            | None => [ShowInformation SaveSuccess; Accept]
            | Some (Return _) => [ShowInformation SaveSuccess; MenuUpdated; Accept]
            | Some (Raise e) =>
                [ShowInformation SaveSuccess;
                 Print (ErrorSavingSchedule (Exception e));
                 ShowCritical (FailedToSave (Exception e))]
            end
        | Return false => [ShowCritical SaveFailed]
        | Raise e => [Print (ErrorSavingSchedule (Exception e));
                      ShowCritical (FailedToSave (Exception e))]
        end)%list.
Proof.
  intros Hname E. unfold Dialog.save_as_schedule. cbv zeta.
  apply String.eqb_neq in Hname. rewrite Hname. cbn [andb negb].
  rewrite E. pose proof (returned_collect_nonempty _ _ E) as Hne.
  destruct es as [|e es]; [done|].
  destruct (DatabaseManager_save_schedule name (Dicts (e :: es)) st)
    as [[[|]|x] st']; cbn; [|done..].
  unfold Dialog.after_success.
  by destruct update_schedule_menu as [[|]|].
Qed.

Lemma save_as_schedule_quiet name ok table st :
  ok && negb (String.eqb name "") = false ∨ returned (collect table) = None →
  (save_as_schedule name ok table st).1
  = if ok && negb (String.eqb name "") then collect_events (collect table) else [].
Proof.
  unfold Dialog.save_as_schedule. cbv zeta. intros [->| ->]; [done|].
  by destruct (ok && negb (String.eqb name "")).
Qed.

Lemma save_as_schedule_cases name ok table :
  (ok = true ∧ name ≠ "" ∧ ∃ es, returned (collect table) = Some es)
  ∨ (ok && negb (String.eqb name "") = false ∨ returned (collect table) = None).
Proof.
  destruct ok; [|right; by left].
  destruct (String.eqb_spec name "") as [->|Hne]; [right; by left|].
  destruct (returned (collect table)) as [es|]; [left|right; by right].
  split_and!; [done..|by eexists].
Qed.

(** Membership in a list that is written out. *)
Ltac listed :=
  repeat first [apply list_elem_of_here | apply list_elem_of_further].

Ltac not_listed H :=
  repeat (apply elem_of_cons in H as [H|H]; [discriminate H|]);
  by apply elem_of_nil in H.

(** X15.  [save_as_schedule] closes the dialog exactly when the name
    dialog was confirmed with a name that is not empty, the collector
    returned entries, the store answered with a true value and the refresh
    of the parent's menu, if the parent has one, did not raise. *)
Theorem save_as_schedule_accepts_iff name ok table st :
  Accept ∈ (save_as_schedule name ok table st).1
  ↔ ok = true ∧ name ≠ ""
    ∧ ∃ es, returned (collect table) = Some es
        ∧ (DatabaseManager_save_schedule name (Dicts es) st).1 = Return true
        ∧ ∀ e, update_schedule_menu ≠ Some (Raise e).
Proof.
  destruct (save_as_schedule_cases name ok table)
    as [(-> & Hname & es & E)|Hq].
  - rewrite (save_as_schedule_events _ _ _ _ Hname E), !elem_of_app.
    split.
    + intros [H|[H|H]].
      * by apply Accept_not_collected in H.
      * not_listed H.
      * split_and!; [done..|]. exists es. split; [done|].
        destruct (DatabaseManager_save_schedule name (Dicts es) st).1
          as [[|]|x]; [|not_listed H..].
        split; [done|]. intros e ->. not_listed H.
    + intros (_ & _ & es' & E' & Hs & Hmenu).
      assert (es' = es) as -> by congruence. rewrite Hs. right. right.
      destruct update_schedule_menu as [[[]|e]|]; [listed| |listed].
      by destruct (Hmenu e).
  - rewrite (save_as_schedule_quiet _ _ _ _ Hq). split.
    + destruct (ok && negb (String.eqb name "")) eqn:Hok.
      * intros H. by apply Accept_not_collected in H.
      * by intros ?%elem_of_nil.
    + intros (-> & Hname & es & E & _).
      apply String.eqb_neq in Hname.
      destruct Hq as [Hq| Hq]; [by rewrite Hname in Hq|congruence].
Qed.

(** X16.  [save_as_schedule] shows the success box as soon as the store
    has answered with a true value, before the parent's menu is
    refreshed: it is shown exactly when the name dialog was confirmed
    with a name that is not empty, the collector returned entries and the
    store answered with a true value, also when the refresh then raises
    and the failure box follows. *)
Theorem save_as_schedule_reports_success_iff name ok table st :
  ShowInformation SaveSuccess ∈ (save_as_schedule name ok table st).1
  ↔ ok = true ∧ name ≠ ""
    ∧ ∃ es, returned (collect table) = Some es
        ∧ (DatabaseManager_save_schedule name (Dicts es) st).1 = Return true.
Proof.
  destruct (save_as_schedule_cases name ok table)
    as [(-> & Hname & es & E)|Hq].
  - rewrite (save_as_schedule_events _ _ _ _ Hname E), !elem_of_app.
    split.
    + intros [H|[H|H]].
      * by apply ShowInformation_not_collected in H.
      * not_listed H.
      * split_and!; [done..|]. exists es. split; [done|].
        by destruct (DatabaseManager_save_schedule name (Dicts es) st).1
          as [[|]|x]; [|not_listed H..].
    + intros (_ & _ & es' & E' & Hs).
      assert (es' = es) as -> by congruence. rewrite Hs. right. right.
      destruct update_schedule_menu as [[[]|e]|]; listed.
  - rewrite (save_as_schedule_quiet _ _ _ _ Hq). split.
    + destruct (ok && negb (String.eqb name "")) eqn:Hok.
      * intros H. by apply ShowInformation_not_collected in H.
      * by intros ?%elem_of_nil.
    + intros (-> & Hname & es & E & _).
      apply String.eqb_neq in Hname.
      destruct Hq as [Hq| Hq]; [by rewrite Hname in Hq|congruence].
Qed.

End Session.

(** ** Filling in the first row *)

Lemma pretty_N_char_decimal n :
  (n < 10)%N →
  Py.isdecimal (pretty_N_char n) = true
  ∧ Py.digit_value (pretty_N_char n) = Z.of_N n.
Proof.
  intros H.
  assert (n = 0 ∨ n = 1 ∨ n = 2 ∨ n = 3 ∨ n = 4 ∨ n = 5
          ∨ n = 6 ∨ n = 7 ∨ n = 8 ∨ n = 9)%N as Hn by lia.
  repeat (destruct Hn as [->|Hn]; [by vm_compute|]). subst n. by vm_compute.
Qed.

Lemma pretty_N_go_decimal x :
  ∀ s, all_decimal s = true → all_decimal (pretty_N_go x s) = true.
Proof.
  induction (N.lt_wf_0 x) as [x _ IH]; intros s Hs.
  assert (x = 0 ∨ 0 < x)%N as [->|Hx] by lia; [by rewrite pretty_N_go_0|].
  rewrite pretty_N_go_step by done. apply IH; [by apply N.div_lt|].
  cbn [all_decimal]. rewrite Hs, andb_true_r.
  apply pretty_N_char_decimal, N.mod_lt. lia.
Qed.

Lemma pretty_N_go_head x :
  ∀ s, (0 < x)%N →
    ∃ c r, pretty_N_go x s = String c r ∧ Py.isdecimal c = true.
Proof.
  induction (N.lt_wf_0 x) as [x _ IH]; intros s Hx.
  rewrite pretty_N_go_step by done.
  destruct (N.eq_0_gt_0_cases (x `div` 10)) as [->|Hd].
  - rewrite pretty_N_go_0. eexists _, _. split; [done|].
    apply pretty_N_char_decimal, N.mod_lt. lia.
  - apply IH; [by apply N.div_lt|done].
Qed.

Lemma pretty_N_go_value x :
  ∀ s, ∃ m, ∀ acc,
    Py.int_digits acc (pretty_N_go x s) = Py.int_digits (acc * m + Z.of_N x) s.
Proof.
  induction (N.lt_wf_0 x) as [x _ IH]; intros s.
  assert (x = 0 ∨ 0 < x)%N as [->|Hx] by lia.
  - exists 1. intros acc. rewrite pretty_N_go_0. f_equal. lia.
  - rewrite pretty_N_go_step by done.
    destruct (IH (x `div` 10)%N ltac:(by apply N.div_lt)
                (String (pretty_N_char (x `mod` 10)) s)) as [m Hm].
    exists (m * 10). intros acc. rewrite Hm. cbn [Py.int_digits].
    destruct (pretty_N_char_decimal (x `mod` 10)) as [-> ->];
      [apply N.mod_lt; lia|].
    f_equal. pose proof (N.div_mod x 10 ltac:(done)). lia.
Qed.

Lemma rstrip_all_decimal s : all_decimal s = true → Py.rstrip s = s.
Proof.
  induction s as [|c r IH]; [done|]. cbn [all_decimal].
  intros [Hc Hr]%andb_prop. rewrite rstrip_cons, (digit_not_space c Hc).
  cbn [andb]. by rewrite IH.
Qed.

Lemma strip_all_decimal s : all_decimal s = true → Py.strip s = s.
Proof.
  intros H. unfold Py.strip. rewrite lstrip_fixed; [by apply rstrip_all_decimal|].
  intros c r ->. cbn [all_decimal] in H. apply andb_prop in H as [Hc _].
  by apply digit_not_space.
Qed.

Lemma strip_minus s : all_decimal s = true → Py.strip (String "-" s) = String "-" s.
Proof.
  intros H. unfold Py.strip.
  change (Py.lstrip (String "-" s)) with (String "-" s).
  change (Py.rstrip (String "-" s)) with (String "-" (Py.rstrip s)).
  by rewrite rstrip_all_decimal.
Qed.

Lemma int_unsigned_pretty p :
  all_decimal (pretty_N_go (N.pos p) "") = true
  ∧ ∃ c r, pretty_N_go (N.pos p) "" = String c r ∧ Py.isdecimal c = true
      ∧ Py.int_unsigned (pretty_N_go (N.pos p) "") = Some (Z.pos p).
Proof.
  split; [by apply pretty_N_go_decimal|].
  destruct (pretty_N_go_head (N.pos p) "" ltac:(done)) as (c & r & E & Hc).
  exists c, r. split_and!; [done..|].
  destruct (pretty_N_go_value (N.pos p) "") as [m Hm].
  specialize (Hm 0). rewrite E in Hm |- *.
  cbn [Py.int_digits Py.int_unsigned] in Hm |- *. rewrite Hc in Hm |- *.
  rewrite Z.mul_0_l, !Z.add_0_l in Hm. by rewrite Hm.
Qed.

Lemma decimal_not_sign c :
  Py.isdecimal c = true → Ascii.eqb c "-" = false ∧ Ascii.eqb c "+" = false.
Proof.
  intros H. split; apply Ascii.eqb_neq; intros ->; by vm_compute in H.
Qed.

(** [int(str(n))] is [n], and [str(n)] has no whitespace around it. *)
Lemma int_pretty (n : Z) :
  Py.strip (pretty n) = pretty n ∧ Py.int_literal (pretty n) = Some n.
Proof.
  destruct n as [|p|p].
  - by vm_compute.
  - change (pretty (Z.pos p)) with (pretty_N_go (N.pos p) "").
    destruct (int_unsigned_pretty p) as (Hd & c & r & E & Hc & Hv).
    split; [by apply strip_all_decimal|].
    unfold Py.int_literal. rewrite (strip_all_decimal _ Hd), E.
    destruct (decimal_not_sign c Hc) as [-> ->]. by rewrite <- E.
  - change (pretty (Z.neg p)) with ("-" +:+ pretty_N_go (N.pos p) "").
    destruct (int_unsigned_pretty p) as (Hd & c & r & E & Hc & Hv).
    change ("-" +:+ pretty_N_go (N.pos p) "")
      with (String "-" (pretty_N_go (N.pos p) "")).
    split; [by apply strip_minus|].
    unfold Py.int_literal. rewrite (strip_minus _ Hd).
    change (Ascii.eqb "-" "-") with true. cbv iota. by rewrite Hv.
Qed.

Lemma int_nonempty m s n : Py.int m s = Some n → s ≠ "".
Proof. intros H%int_Some. by intros ->. Qed.

Section Populate.

Context (MIN_TEMP MAX_TEMP : Z)
        (validate_time_format : string → result bool)
        (int_max_str_digits : N)
        (DEFAULT_TEMP : Z) (DEFAULT_TIME : string).

#[local] Abbreviation validate_temperature :=
  (ScheduleWindow.validate_temperature MIN_TEMP MAX_TEMP).
#[local] Abbreviation collect :=
  (ScheduleWindow.validate_and_collect_entries MIN_TEMP MAX_TEMP
     validate_time_format int_max_str_digits).
#[local] Abbreviation auto_populate_first_row :=
  (Dialog.auto_populate_first_row DEFAULT_TEMP DEFAULT_TIME).

(** X17.  Taking DEFAULT_TEMP to be an integer: after
    [auto_populate_first_row] for "Ramp" or "Soak" on a table of one row
    with a combo box and four line edits, the collector reads the start
    temperature back as DEFAULT_TEMP and the duration as DEFAULT_TIME
    without the whitespace around it.  Given a cycle type that is not
    empty, an end temperature that reads as an integer in range, a
    default temperature in range and a default time the imported
    validator accepts, it returns that one entry.  This holds under every
    digit limit of the interpreter that lets the decimal form of
    DEFAULT_TEMP through: with no limit set for every integer, and under
    any limit for those of up to 640 digits. *)
Theorem auto_populated_row_is_collected sw cycle_type ct s1 et s3 nt e :
  (cycle_type = "Ramp" ∨ cycle_type = "Soak") →
  ct ≠ "" →
  Py.int int_max_str_digits (Py.strip et) = Some e →
  Py.too_many_digits int_max_str_digits (Py.digit_count (pretty DEFAULT_TEMP))
  = false →
  validate_temperature DEFAULT_TEMP = true →
  validate_temperature e = true →
  Py.strip DEFAULT_TIME ≠ "" →
  validate_time_format (Py.strip DEFAULT_TIME) = Return true →
  returned
    (collect sw
       (auto_populate_first_row cycle_type
          [{| cell0 := Some (QComboBox ct); cell1 := Some (QLineEdit s1);
              cell2 := Some (QLineEdit et); cell3 := Some (QLineEdit s3);
              cell4 := Some (QLineEdit nt) |}]).2)
  = Some [{| CycleType := ct; StartTemp := DEFAULT_TEMP; EndTemp := e;
             Duration := Py.strip DEFAULT_TIME; Notes := Py.strip nt |}].
Proof.
  intros Hct Hne He Hlim Hd Hr Ht Hv.
  assert (auto_populate_first_row cycle_type
            [{| cell0 := Some (QComboBox ct); cell1 := Some (QLineEdit s1);
                cell2 := Some (QLineEdit et); cell3 := Some (QLineEdit s3);
                cell4 := Some (QLineEdit nt) |}]
          = (Return tt,
             [{| cell0 := Some (QComboBox ct);
                 cell1 := Some (QLineEdit (pretty DEFAULT_TEMP));
                 cell2 := Some (QLineEdit et);
                 cell3 := Some (QLineEdit DEFAULT_TIME);
                 cell4 := Some (QLineEdit nt) |}])) as ->.
  { unfold Dialog.auto_populate_first_row. by destruct Hct as [-> | ->]. }
  destruct (int_pretty DEFAULT_TEMP) as [Hs Hi0].
  assert (Hi : Py.int int_max_str_digits (pretty DEFAULT_TEMP) = Some DEFAULT_TEMP).
  { unfold Py.int. by rewrite Hlim. }
  unfold ScheduleWindow.validate_and_collect_entries.
  cbn [snd ScheduleWindow.collect_from].
  rewrite (row_body_fields MIN_TEMP MAX_TEMP validate_time_format int_max_str_digits 0 _
             ct (pretty DEFAULT_TEMP) (Py.strip et) (Py.strip DEFAULT_TIME)
             (Py.strip nt)).
  2:{ unfold ScheduleWindow.row_fields. cbn. by rewrite Hs. }
  rewrite (judge_nonempty MIN_TEMP MAX_TEMP validate_time_format int_max_str_digits);
    [|done|by eapply int_nonempty|by eapply int_nonempty|done].
  rewrite Hv. cbn [mbind result_bind negb]. rewrite Hi, He, Hd, Hr. done.
Qed.

(** X18.  [auto_populate_first_row] changes nothing outside columns 1 and
    3 of the first row, however it ends: the table keeps its number of
    rows, every later row and the other three cells of the first row stay
    as they are; and for a cycle type other than "Ramp" and "Soak" it
    returns with the whole table as it was. *)
Theorem auto_populate_touches_two_cells cycle_type table :
  length (auto_populate_first_row cycle_type table).2 = length table
  ∧ drop 1 (auto_populate_first_row cycle_type table).2 = drop 1 table
  ∧ (cell0 <$> head (auto_populate_first_row cycle_type table).2) = (cell0 <$> head table)
  ∧ (cell2 <$> head (auto_populate_first_row cycle_type table).2) = (cell2 <$> head table)
  ∧ (cell4 <$> head (auto_populate_first_row cycle_type table).2) = (cell4 <$> head table)
  ∧ (cycle_type ≠ "Ramp" → cycle_type ≠ "Soak" →
     auto_populate_first_row cycle_type table = (Return tt, table)).
Proof.
  unfold Dialog.auto_populate_first_row.
  destruct (String.eqb_spec cycle_type "Ramp") as [->|H1];
    [|destruct (String.eqb_spec cycle_type "Soak") as [->|H2]];
    cbn [orb]; try (by split_and!);
    (destruct table as [|[c0 [[a|a]|] c2 [[b|b]|] c4] rest];
     cbn; by split_and!).
Qed.

(** X19.  Calling [auto_populate_first_row] a second time with the same
    cycle type ends as the first call did and leaves the table the first
    call left. *)
Theorem auto_populate_twice cycle_type table :
  auto_populate_first_row cycle_type
    (auto_populate_first_row cycle_type table).2
  = auto_populate_first_row cycle_type table.
Proof.
  unfold Dialog.auto_populate_first_row.
  destruct (String.eqb cycle_type "Ramp" || String.eqb cycle_type "Soak");
    [|done].
  by destruct table as [|[c0 [[a|a]|] c2 [[b|b]|] c4] rest].
Qed.

End Populate.

(** ** The further statements on the example schedule *)

Module Further_scenario.

Import Example.

(** X5 at a table of a filled row, a blank row and a second filled row. *)
Lemma collect_returns_checked_entries_witness :
  returned (collect true [ramp_row; blank_row; soak_row]) = Some [ramp; soak]
  ∧ Forall (passed_checks MIN_TEMP MAX_TEMP time_validator) [ramp; soak].
Proof.
  assert (H : returned (collect true [ramp_row; blank_row; soak_row])
              = Some [ramp; soak]) by (vm_compute; reflexivity).
  split; [exact H|].
  exact (collect_returns_checked_entries MIN_TEMP MAX_TEMP
      time_validator int_max_str_digits
           true [ramp_row; blank_row; soak_row] [ramp; soak] H).
Defined.

(** X6 at a blank row followed by a row whose first widget is a line
    edit. *)
Lemma collect_without_survivors_witness :
  returned (collect true [blank_row; wrong_widget_row]) = None
  ∧ shown (collect true [blank_row; wrong_widget_row])
    = ["No valid entries to save. Please check all required fields."].
Proof.
  apply (collect_without_survivors MIN_TEMP MAX_TEMP
      time_validator int_max_str_digits true
           [blank_row; wrong_widget_row]).
  intros [|[|i]] r H.
  - injection H as <-. left. vm_compute. reflexivity.
  - injection H as <-. right. exists AttributeError. vm_compute. reflexivity.
  - discriminate H.
Defined.

(** X7 at a second row whose four texts carry spaces. *)
Lemma collect_ignores_surrounding_whitespace_witness :
  (∀ i, ScheduleWindow.row_body MIN_TEMP MAX_TEMP time_validator int_max_str_digits i
          (pad_row (" ", "  ") ("", " ") ("  ", "") (" ", " ") soak_row)
        = ScheduleWindow.row_body MIN_TEMP MAX_TEMP
            time_validator int_max_str_digits i soak_row)
  ∧ collect true
      [ramp_row; pad_row (" ", "  ") ("", " ") ("  ", "") (" ", " ") soak_row]
    = collect true [ramp_row; soak_row].
Proof.
  apply (collect_ignores_surrounding_whitespace MIN_TEMP MAX_TEMP
           time_validator int_max_str_digits true [ramp_row] soak_row []
           (" ", "  ") ("", " ") ("  ", "") (" ", " "));
    vm_compute; reflexivity.
Defined.

(** X17 at the defaults 25 and "00:00:00" and a first row whose end
    temperature reads " 200". *)
Lemma auto_populated_row_is_collected_witness :
  returned
    (collect true
       (ExampleSession.auto_populate_first_row "Ramp"
          [line_edits "Ramp" "" " 200" "" ""]).2)
  = Some [{| CycleType := "Ramp"; StartTemp := 25; EndTemp := 200;
             Duration := "00:00:00"; Notes := "" |}].
Proof.
  apply (auto_populated_row_is_collected MIN_TEMP MAX_TEMP time_validator
           int_max_str_digits
           ExampleSession.DEFAULT_TEMP ExampleSession.DEFAULT_TIME
           true "Ramp" "Ramp" "" " 200" "" "" 200).
  - left. reflexivity.
  - discriminate.
  - vm_compute. reflexivity.
  - vm_compute. reflexivity.
  - vm_compute. reflexivity.
  - vm_compute. reflexivity.
  - vm_compute. discriminate.
  - vm_compute. reflexivity.
Defined.

End Further_scenario.
